(** * Whisper STT server: novel-mvp-backend/python-services/whisper-stt/app.py

    A shallow embedding of the FastAPI service and the proofs of the
    properties its specification states.

    Conventions of the embedding.
    - Python [float]s and the float32 samples of a numpy array are read as
      exact rationals ([Q]); a one-dimensional [np.ndarray] is a [list Q].
    - [bytes] is a [list byte], [len] returns a [Z], a [str] is a [string]
      whose characters are the code points below 256.
    - A Python [dict] is an association list in insertion order; the result
      dictionaries of the model are records with one optional field per key
      the handlers read ([None]: the key is absent).
    - What the process does not define itself (the environment, torch,
      librosa, the Whisper model) is a [World]: one field per entry point,
      each either returning or raising.
    - A handler is a computation in [M]: it reads and writes the module's
      globals, may raise, and records every call into the whisper library.
      Its arguments are the values FastAPI hands it: the uploaded file is
      the [bytes] that [await file.read()] returns, a form field comes
      with its default already filled in.
    - [logger] calls change no value a handler returns and are left out. *)

From Stdlib Require Import ZArith QArith Qabs List String Ascii Bool Lia Lqa.
From Stdlib Require Import Strings.Byte DecimalString.
Import ListNotations.

Local Open Scope string_scope.
Local Open Scope list_scope.
Local Open Scope Z_scope.

(** ** Python values *)

Definition bytes := list byte.
Definition ndarray := list Q.

Definition len {A : Type} (l : list A) : Z := Z.of_nat (List.length l).

(** [str(n)] and [f"{n}"] of an [int]. *)
Definition str_int (n : Z) : string := NilZero.string_of_int (Z.to_int n).

(** Exceptions.  [LibraryError] stands for whatever librosa, torch or
    whisper raise; its argument is the exception's [str]. *)
Inductive Exn : Type :=
| HTTPException (status_code : Z) (detail : string)
| KeyError (key : string)
| ValueError (msg : string)
| TypeError (msg : string)
| AttributeError (msg : string)
| LibraryError (msg : string).

(** [str(e)].  Starlette's [HTTPException.__str__] prints the status code
    and the detail; [KeyError] prints the [repr] of the key. *)
Definition str_exn (e : Exn) : string :=
  match e with
  | HTTPException status_code detail =>
      (str_int status_code ++ ": " ++ detail)%string
  | KeyError key => ("'" ++ key ++ "'")%string
  | ValueError msg => msg
  | TypeError msg => msg
  | AttributeError msg => msg
  | LibraryError msg => msg
  end.

Inductive result (A : Type) : Type :=
| Ok (a : A)
| Raise (e : Exn).
Arguments Ok {A} a.
Arguments Raise {A} e.

(** The status the HTTP client sees: FastAPI answers an [HTTPException]
    with its status code and any other exception with 500. *)
Definition client_status {A : Type} (r : result A) : Z :=
  match r with
  | Ok _ => 200
  | Raise (HTTPException status_code _) => status_code
  | Raise _ => 500
  end.

(** *** Strings *)

(** [str.isspace] on one character (code points below 256). *)
Definition isspace (c : ascii) : bool :=
  let n := Z.of_nat (nat_of_ascii c) in
  ((9 <=? n) && (n <=? 13)) || ((28 <=? n) && (n <=? 32))
  || (n =? 133) || (n =? 160).

Fixpoint lstrip (s : string) : string :=
  match s with
  | String c s' => if isspace c then lstrip s' else s
  | EmptyString => EmptyString
  end.

Fixpoint rstrip (s : string) : string :=
  match s with
  | String c s' =>
      match rstrip s' with
      | EmptyString => if isspace c then EmptyString else String c EmptyString
      | r => String c r
      end
  | EmptyString => EmptyString
  end.

(** [s.strip()] *)
Definition strip (s : string) : string := rstrip (lstrip s).

(** *** Lists and arrays *)

(** [a[:k]] *)
Definition slice_to {A : Type} (a : list A) (k : Z) : list A :=
  if k <? 0 then firstn (Z.to_nat (len a + k)) a else firstn (Z.to_nat k) a.

(** [np.pad(a, (before, after))]: constant mode, the constant is 0; a
    negative width is refused. *)
Definition np_pad (a : ndarray) (before after : Z) : result ndarray :=
  if (before <? 0) || (after <? 0)
  then Raise (ValueError "index can't contain negative values")
  else Ok (repeat 0%Q (Z.to_nat before) ++ a ++ repeat 0%Q (Z.to_nat after)).

(** [a.astype(np.float32)].  [librosa.load] returns float32 samples unless
    another dtype is asked for, and a conversion to the array's own dtype
    keeps every sample. *)
Definition astype_float32 (a : ndarray) : ndarray := a.

(** *** Dictionaries *)

Definition dict (K V : Type) : Type := list (K * V).

Definition keys {K V : Type} (d : dict K V) : list K := map fst d.

Fixpoint dict_get {V : Type} (d : dict string V) (k : string) : option V :=
  match d with
  | [] => None
  | (k', v) :: d' => if String.eqb k k' then Some v else dict_get d' k
  end.

(** [d[k]] *)
Definition dict_item {V : Type} (d : dict string V) (k : string) : result V :=
  match dict_get d k with
  | Some v => Ok v
  | None => Raise (KeyError k)
  end.

(** [x > y] on floats. *)
Definition Qgtb (x y : Q) : bool := negb (Qle_bool x y).

(** [max(l, key=f)].  The key of an element is computed once; a later
    element replaces the current one only when its key is strictly
    greater, so the first of several maximal elements is returned. *)
Fixpoint max_scan {A : Type} (key : A -> result Q) (best : A) (kbest : Q)
  (l : list A) : result A :=
  match l with
  | [] => Ok best
  | x :: l' =>
      match key x with
      | Raise e => Raise e
      | Ok kx =>
          if Qgtb kx kbest then max_scan key x kx l'
          else max_scan key best kbest l'
      end
  end.

Definition py_max {A : Type} (l : list A) (key : A -> result Q) : result A :=
  match l with
  | [] => Raise (ValueError "max() arg is an empty sequence")
  | x :: l' =>
      match key x with
      | Raise e => Raise e
      | Ok kx => max_scan key x kx l'
      end
  end.

(** [[f(x) for x in l]] where [f] may raise. *)
Fixpoint map_result {A B : Type} (f : A -> result B) (l : list A)
  : result (list B) :=
  match l with
  | [] => Ok []
  | x :: l' =>
      match f x with
      | Raise e => Raise e
      | Ok y =>
          match map_result f l' with
          | Raise e => Raise e
          | Ok ys => Ok (y :: ys)
          end
      end
  end.

(** ** Computations: globals, exceptions and a trace of calls

    [M S E A] is a computation over globals [S] that returns an [A] or
    raises, and appends the calls it makes (of type [E]) to a trace.  The
    globals survive an exception, as Python's do. *)

Definition M (S E A : Type) : Type := S -> result A * S * list E.

Definition ret {S E A : Type} (a : A) : M S E A :=
  fun g => (Ok a, g, []).

Definition raise {S E A : Type} (e : Exn) : M S E A :=
  fun g => (Raise e, g, []).

Definition bind {S E A B : Type} (m : M S E A) (k : A -> M S E B) : M S E B :=
  fun g =>
    match m g with
    | (Ok a, g1, t1) =>
        match k a g1 with
        | (r, g2, t2) => (r, g2, t1 ++ t2)
        end
    | (Raise e, g1, t1) => (Raise e, g1, t1)
    end.

(** [try: m  except Exception as e: handler(e)] *)
Definition try_except {S E A : Type} (m : M S E A) (handler : Exn -> M S E A)
  : M S E A :=
  fun g =>
    match m g with
    | (Ok a, g1, t1) => (Ok a, g1, t1)
    | (Raise e, g1, t1) =>
        match handler e g1 with
        | (r, g2, t2) => (r, g2, t1 ++ t2)
        end
    end.

(** Read a global. *)
Definition read {S E A : Type} (f : S -> A) : M S E A :=
  fun g => (Ok (f g), g, []).

(** Assign the globals. *)
Definition write {S E : Type} (f : S -> S) : M S E unit :=
  fun g => (Ok tt, f g, []).

(** A step that touches no global and calls nothing outside. *)
Definition lift {S E A : Type} (r : result A) : M S E A :=
  fun g => (r, g, []).

(** A call into the library: the call is recorded whether it returns or
    raises. *)
Definition call {S E A : Type} (ev : E) (r : result A) : M S E A :=
  fun g => (r, g, [ev]).

Declare Scope comp_scope.
Delimit Scope comp_scope with comp.
Notation "x <- m ;; k" := (bind m (fun x => k))
  (at level 100, m at next level, right associativity) : comp_scope.
Notation "' p <- m ;; k" := (bind m (fun x => let p := x in k))
  (at level 100, p pattern, m at next level, right associativity) : comp_scope.

Definition outcome {S E A : Type} (x : result A * S * list E) : result A :=
  fst (fst x).
Definition globals_after {S E A : Type} (x : result A * S * list E) : S :=
  snd (fst x).
Definition trace {S E A : Type} (x : result A * S * list E) : list E :=
  snd x.

(** A computation that hands the globals back as it found them, however
    it ends. *)
Definition preserves_globals {S E A : Type} (m : M S E A) : Prop :=
  forall g : S, globals_after (m g) = g.

(** ** Configuration and the pydantic models *)

Record Config : Type := {
  MODEL_NAME : string;
  DEVICE : string;
  LANGUAGE : string;
  TEMPERATURE : Q;
  MAX_FILE_SIZE : Z;
  SAMPLE_RATE : Z
}.

(** A segment dictionary of the model's result. *)
Record Segment : Type := {
  seg_text : option string;
  seg_start : option Q;
  seg_end : option Q;
  seg_avg_logprob : option Q
}.

(** The dictionary [whisper_model.transcribe] returns. *)
Record TranscribeResult : Type := {
  res_text : option string;
  res_language : option string;
  res_duration : option Q;
  res_segments : option (list Segment);
  res_avg_logprob : option Q
}.

Module TranscriptionResponse.
Record t : Type := {
  text : string;
  language : option string;
  duration : option Q;
  segments : option (list Segment);
  confidence : option Q
}.
End TranscriptionResponse.

Module LanguageDetectionResponse.
Record t : Type := {
  detected_language : string;
  confidence : Q
}.
End LanguageDetectionResponse.

Module HealthResponse.
Record t : Type := {
  status : string;
  model : string;
  device : string;
  timestamp : string
}.
End HealthResponse.

Module ModelInfo.
Record t : Type := {
  name : string;
  size : string;
  parameters : string;
  languages : list string
}.
End ModelInfo.

(** The bodies of the three responses that are plain dictionaries. *)
Module StreamSegment.
Record t : Type := {
  text : string;
  start : Q;
  end_ : Q;
  confidence : Q
}.
End StreamSegment.

Module StreamResponse.
Record t : Type := {
  text : string;
  segments : list StreamSegment.t;
  language : option string
}.
End StreamResponse.

Module InfoResponse.
Record t : Type := {
  service : string;
  version : string;
  model : string;
  device : string;
  supported_languages : list string;
  features : list string
}.
End InfoResponse.

(** The keyword arguments of [whisper_model.transcribe]; [None] where the
    handler does not pass the keyword. *)
Record Options : Type := {
  opt_language : option (option string);
  opt_temperature : option Q;
  opt_word_timestamps : option bool;
  opt_condition_on_previous_text : option bool
}.

(** A torch tensor: its samples and the device it lives on. *)
Record Tensor : Type := {
  tensor_data : ndarray;
  tensor_device : string
}.

Definition torch_from_numpy (a : ndarray) : Tensor :=
  {| tensor_data := a; tensor_device := "cpu" |}.

Definition tensor_to (t : Tensor) (device : string) : Tensor :=
  {| tensor_data := tensor_data t; tensor_device := device |}.

(** ** The world outside the module *)

Class World : Type := {
  Model : Type;
  Mel : Type;
  LanguageToken : Type;
  (** [os.getenv] *)
  getenv : string -> option string;
  (** [torch.cuda.is_available()] *)
  cuda_is_available : bool;
  (** [librosa.load(io.BytesIO(b), sr=sr)]: the samples and the rate *)
  librosa_load : bytes -> Z -> result (ndarray * Z);
  (** [whisper.load_model(name, device=device)] *)
  whisper_load_model : string -> string -> result Model;
  (** [model.dims.n_mels] *)
  dims_n_mels : Model -> Z;
  (** [model.transcribe(audio, **options)] *)
  model_transcribe : Model -> ndarray -> Options -> result TranscribeResult;
  (** [whisper.log_mel_spectrogram(audio, n_mels=n)] *)
  log_mel_spectrogram : Tensor -> Z -> result Mel;
  (** [model.detect_language(mel)] *)
  model_detect_language :
    Model -> Mel -> result (LanguageToken * dict string Q)
}.

(** ** The module *)

Section Server.

Context {W : World}.

(** [class Config], evaluated when the module is imported. *)
Definition Config_init : Config :=
  {| MODEL_NAME :=
       match getenv "WHISPER_MODEL" with Some v => v | None => "base" end;
     DEVICE := if cuda_is_available then "cuda" else "cpu";
     LANGUAGE := "ko";
     TEMPERATURE := 0%Q;
     MAX_FILE_SIZE := 25 * 1024 * 1024;
     SAMPLE_RATE := 16000 |}.

(** The module's globals. *)
Record Globals : Type := {
  whisper_model : option Model;
  config : Config
}.

(** The globals once the module is imported: [config = Config()] and
    [whisper_model = None]. *)
Definition module_init : Globals :=
  {| whisper_model := None; config := Config_init |}.

(** The globals under the module's configuration. *)
Definition at_config (wm : option Model) : Globals :=
  {| whisper_model := wm; config := Config_init |}.

(** Calls into the whisper library. *)
Inductive Event : Type :=
| CallLoadModel (name device : string)
| CallTranscribe (m : Model) (audio : ndarray) (options : Options)
| CallLogMel (audio : Tensor) (n_mels : Z)
| CallDetectLanguage (m : Model) (mel : Mel).

Definition Comp (A : Type) : Type := M Globals Event A.

Local Open Scope comp_scope.

Definition load_whisper_model : Comp unit :=
  try_except
    (cfg <- read config ;;
     m <- call (CallLoadModel (MODEL_NAME cfg) (DEVICE cfg))
            (whisper_load_model (MODEL_NAME cfg) (DEVICE cfg)) ;;
     write (fun g => {| whisper_model := Some m; config := config g |}))
    (fun e => raise e).

Definition preprocess_audio (audio_file : bytes) : Comp ndarray :=
  try_except
    (cfg <- read config ;;
     '(audio_data, sr) <- lift (librosa_load audio_file (SAMPLE_RATE cfg)) ;;
     let audio_data := astype_float32 audio_data in
     let max_length := SAMPLE_RATE cfg * 30 in
     audio_data <-
       (if len audio_data >? max_length
        then ret (slice_to audio_data max_length)
        else lift (np_pad audio_data 0 (max_length - len audio_data))) ;;
     ret audio_data)
    (fun e => raise e).

Definition startup_event : Comp unit := load_whisper_model.

(** [now] is what [datetime.now().isoformat()] returns when the handler
    runs. *)
Definition health_check (now : string) : Comp HealthResponse.t :=
  wm <- read whisper_model ;;
  cfg <- read config ;;
  ret {| HealthResponse.status :=
           match wm with Some _ => "healthy" | None => "unhealthy" end;
         HealthResponse.model := MODEL_NAME cfg;
         HealthResponse.device := DEVICE cfg;
         HealthResponse.timestamp := now |}.

Definition get_models : Comp (dict string (list (dict string string))) :=
  let models :=
    [ [("id", "tiny"); ("size", "39M");
       ("description", "Fastest, lowest accuracy")];
      [("id", "base"); ("size", "74M");
       ("description", "Good balance of speed and accuracy")];
      [("id", "small"); ("size", "244M");
       ("description", "Better accuracy, slower")];
      [("id", "medium"); ("size", "769M");
       ("description", "High accuracy")];
      [("id", "large"); ("size", "1550M");
       ("description", "Best accuracy, slowest")] ] in
  ret [("data", models)].

(** Truth value of an [Optional[str]]. *)
Definition truthy (s : option string) : bool :=
  match s with
  | None | Some EmptyString => false
  | Some _ => true
  end.

(** [whisper_model.transcribe(audio, **options)]; on [None] the attribute
    lookup fails. *)
Definition transcribe_with (wm : option Model) (audio : ndarray)
  (options : Options) : Comp TranscribeResult :=
  match wm with
  | None =>
      raise (AttributeError "'NoneType' object has no attribute 'transcribe'")
  | Some m => call (CallTranscribe m audio options) (model_transcribe m audio options)
  end.

(** [d["text"]] on a result or segment dictionary. *)
Definition item (key : string) {A : Type} (v : option A) : result A :=
  match v with
  | Some a => Ok a
  | None => Raise (KeyError key)
  end.

(** The confidence expression of [transcribe_audio]. *)
Definition overall_confidence (avg_logprob : Q) : Q :=
  (1 - (avg_logprob / -1))%Q.

(** The confidence expression of [transcribe_stream]. *)
Definition segment_confidence (avg_logprob : Q) : Q :=
  (1 - Qabs avg_logprob)%Q.

(** The [options] dictionary of [transcribe_audio]. *)
Definition transcription_options (language : option string) (temperature : Q)
  (timestamp_granularities : option string) : Options :=
  {| opt_language := Some language;
     opt_temperature := Some temperature;
     opt_word_timestamps :=
       if truthy timestamp_granularities then Some true else None;
     opt_condition_on_previous_text := None |}.

Definition transcribe_audio (file : bytes) (model : string)
  (language : option string) (response_format : string) (temperature : Q)
  (timestamp_granularities : option string)
  : Comp TranscriptionResponse.t :=
  wm <- read whisper_model ;;
  match wm with
  | None => raise (HTTPException 503 "Whisper model not loaded")
  | Some m =>
      try_except
        (let content := file in
         cfg <- read config ;;
         _ <- (if len content >? MAX_FILE_SIZE cfg
               then raise (HTTPException 413
                      ("File too large. Maximum size: "
                       ++ str_int (MAX_FILE_SIZE cfg) ++ " bytes")%string)
               else ret tt) ;;
         audio_data <- preprocess_audio content ;;
         let options :=
           transcription_options language temperature
             timestamp_granularities in
         wm <- read whisper_model ;;
         result <- transcribe_with wm audio_data options ;;
         let confidence :=
           match res_avg_logprob result with
           | Some p => Some (overall_confidence p)
           | None => None
           end in
         text <- lift (item "text" (res_text result)) ;;
         let response :=
           {| TranscriptionResponse.text := strip text;
              TranscriptionResponse.language := res_language result;
              TranscriptionResponse.duration := res_duration result;
              TranscriptionResponse.segments := res_segments result;
              TranscriptionResponse.confidence := confidence |} in
         ret response)
        (fun e =>
           raise (HTTPException 500
                    ("Transcription failed: " ++ str_exn e)%string))
  end.

(** [probs.get], as [max] uses it: a missing key gives [None], which [max]
    cannot compare with a float. *)
Definition probs_get (probs : dict string Q) (k : string) : result Q :=
  match dict_get probs k with
  | Some v => Ok v
  | None =>
      Raise (TypeError
        "'>' not supported between instances of 'NoneType' and 'float'")
  end.

Definition detect_language (file : bytes)
  : Comp LanguageDetectionResponse.t :=
  wm <- read whisper_model ;;
  match wm with
  | None => raise (HTTPException 503 "Whisper model not loaded")
  | Some _ =>
      try_except
        (let content := file in
         cfg <- read config ;;
         _ <- (if len content >? MAX_FILE_SIZE cfg
               then raise (HTTPException 413 "File too large")
               else ret tt) ;;
         audio_data <- preprocess_audio content ;;
         cfg <- read config ;;
         let audio_segment := slice_to audio_data (SAMPLE_RATE cfg * 30) in
         let audio_tensor :=
           tensor_to (torch_from_numpy audio_segment) (DEVICE cfg) in
         wm <- read whisper_model ;;
         match wm with
         | None =>
             raise (AttributeError
                      "'NoneType' object has no attribute 'dims'")
         | Some m =>
             mel <- call (CallLogMel audio_tensor (dims_n_mels m))
                      (log_mel_spectrogram audio_tensor (dims_n_mels m)) ;;
             '(_, probs) <- call (CallDetectLanguage m mel)
                              (model_detect_language m mel) ;;
             detected_language <- lift (py_max (keys probs) (probs_get probs)) ;;
             confidence <- lift (dict_item probs detected_language) ;;
             ret {| LanguageDetectionResponse.detected_language :=
                      detected_language;
                    LanguageDetectionResponse.confidence := confidence |}
         end)
        (fun e =>
           raise (HTTPException 500
                    ("Language detection failed: " ++ str_exn e)%string))
  end.

Definition transcribe_quick (file : bytes) : Comp (dict string string) :=
  try_except
    (let content := file in
     audio_data <- preprocess_audio content ;;
     wm <- read whisper_model ;;
     cfg <- read config ;;
     result <- transcribe_with wm audio_data
                 {| opt_language := Some (Some (LANGUAGE cfg));
                    opt_temperature := Some 0%Q;
                    opt_word_timestamps := Some false;
                    opt_condition_on_previous_text := None |} ;;
     text <- lift (item "text" (res_text result)) ;;
     ret [("text", strip text)])
    (fun e => raise (HTTPException 500 (str_exn e))).

(** One turn of the loop over the segments in [transcribe_stream]. *)
Definition stream_segment (segment : Segment) : result StreamSegment.t :=
  match item "text" (seg_text segment) with
  | Raise e => Raise e
  | Ok text =>
      match item "start" (seg_start segment) with
      | Raise e => Raise e
      | Ok start =>
          match item "end" (seg_end segment) with
          | Raise e => Raise e
          | Ok end_ =>
              Ok {| StreamSegment.text := strip text;
                    StreamSegment.start := start;
                    StreamSegment.end_ := end_;
                    StreamSegment.confidence :=
                      segment_confidence
                        (match seg_avg_logprob segment with
                         | Some p => p
                         | None => (-1)%Q
                         end) |}
          end
      end
  end.

Definition transcribe_stream (file : bytes) : Comp StreamResponse.t :=
  try_except
    (let content := file in
     audio_data <- preprocess_audio content ;;
     wm <- read whisper_model ;;
     cfg <- read config ;;
     result <- transcribe_with wm audio_data
                 {| opt_language := Some (Some (LANGUAGE cfg));
                    opt_temperature := None;
                    opt_word_timestamps := Some true;
                    opt_condition_on_previous_text := Some true |} ;;
     segments <-
       lift (map_result stream_segment
               (match res_segments result with Some l => l | None => [] end)) ;;
     text <- lift (item "text" (res_text result)) ;;
     ret {| StreamResponse.text := strip text;
            StreamResponse.segments := segments;
            StreamResponse.language := res_language result |})
    (fun e => raise (HTTPException 500 (str_exn e))).

Definition get_info : Comp InfoResponse.t :=
  cfg <- read config ;;
  ret {| InfoResponse.service := "Whisper STT Server";
         InfoResponse.version := "1.0.0";
         InfoResponse.model := MODEL_NAME cfg;
         InfoResponse.device := DEVICE cfg;
         InfoResponse.supported_languages :=
           [ "ko"; "en"; "ja"; "zh"; "es"; "fr"; "de"; "ru"; "it"; "pt";
             "pl"; "tr"; "nl"; "ar"; "sv"; "he"; "hu"; "uk"; "vi"; "th" ];
         InfoResponse.features :=
           [ "Real-time transcription";
             "Language detection";
             "Korean language optimized";
             "Streaming support";
             "Multiple model sizes" ] |}.

(** *** Requests

    One constructor per route, with the arguments FastAPI hands to the
    handler, and the body each handler answers with. *)

Inductive Request : Type :=
| GetHealth (now : string)
| GetModels
| PostTranscriptions (file : bytes) (model : string)
    (language : option string) (response_format : string) (temperature : Q)
    (timestamp_granularities : option string)
| PostDetectLanguage (file : bytes)
| PostTranscribeQuick (file : bytes)
| PostTranscribeStream (file : bytes)
| GetInfo.

Inductive Response : Type :=
| RHealth (r : HealthResponse.t)
| RModels (r : dict string (list (dict string string)))
| RTranscription (r : TranscriptionResponse.t)
| RLanguage (r : LanguageDetectionResponse.t)
| RQuick (r : dict string string)
| RStream (r : StreamResponse.t)
| RInfo (r : InfoResponse.t).

Definition fmap {A B : Type} (f : A -> B) (m : Comp A) : Comp B :=
  a <- m ;; ret (f a).

Definition handle (req : Request) : Comp Response :=
  match req with
  | GetHealth now => fmap RHealth (health_check now)
  | GetModels => fmap RModels get_models
  | PostTranscriptions file model language response_format temperature tg =>
      fmap RTranscription
        (transcribe_audio file model language response_format temperature tg)
  | PostDetectLanguage file => fmap RLanguage (detect_language file)
  | PostTranscribeQuick file => fmap RQuick (transcribe_quick file)
  | PostTranscribeStream file => fmap RStream (transcribe_stream file)
  | GetInfo => fmap RInfo get_info
  end.

(** The globals the process can be in: those of the import, and those
    left by the startup hook or by a handler run from such globals. *)
Inductive reachable : Globals -> Prop :=
| reachable_init : reachable module_init
| reachable_startup (g : Globals) :
    reachable g -> reachable (globals_after (startup_event g))
| reachable_handle (g : Globals) (req : Request) :
    reachable g -> reachable (globals_after (handle req g)).

(** The keyword arguments [transcribe_quick] and [transcribe_stream] pass
    to [whisper_model.transcribe] under the module's configuration. *)
Definition quick_options : Options :=
  {| opt_language := Some (Some (LANGUAGE Config_init));
     opt_temperature := Some 0%Q;
     opt_word_timestamps := Some false;
     opt_condition_on_previous_text := None |}.

Definition stream_options : Options :=
  {| opt_language := Some (Some (LANGUAGE Config_init));
     opt_temperature := None;
     opt_word_timestamps := Some true;
     opt_condition_on_previous_text := Some true |}.

(** The calls that load a model, and the calls that run one. *)
Definition is_load_call (ev : Event) : bool :=
  match ev with
  | CallLoadModel _ _ => true
  | _ => false
  end.

Definition is_model_call (ev : Event) : bool :=
  match ev with
  | CallTranscribe _ _ _ | CallDetectLanguage _ _ => true
  | CallLoadModel _ _ | CallLogMel _ _ => false
  end.

End Server.

(** ** A small world to run the handlers in

    Audio is unsigned 8-bit PCM, one sample per byte and no header; the
    model answers every call with the same transcript and the same
    language probabilities. *)

Module Demo.

Definition decode_sample (b : byte) : Q :=
  (Z.of_N (Byte.to_N b) - 128) # 128.

Definition demo_result : TranscribeResult :=
  {| res_text := Some " annyeong ";
     res_language := Some "ko";
     res_duration := None;
     res_segments :=
       Some [ {| seg_text := Some " annyeong";
                 seg_start := Some 0%Q;
                 seg_end := Some (3 # 2);
                 seg_avg_logprob := Some (- (1 # 4))%Q |} ];
     res_avg_logprob := Some (- (1 # 4))%Q |}.

Definition demo_probs : dict string Q :=
  [("en", 1 # 4); ("ko", 1 # 2); ("ja", 1 # 4)].

#[export] Instance world : World :=
  {| Model := string * string;
     Mel := ndarray * Z;
     LanguageToken := Z;
     getenv := fun _ => None;
     cuda_is_available := false;
     librosa_load := fun b sr =>
       match b with
       | [] => Raise (LibraryError "empty file")
       | _ => Ok (map decode_sample b, sr)
       end;
     whisper_load_model := fun name device => Ok (name, device);
     dims_n_mels := fun _ => 80;
     model_transcribe := fun _ _ _ => Ok demo_result;
     log_mel_spectrogram := fun t n => Ok (tensor_data t, n);
     model_detect_language := fun _ _ => Ok (50264, demo_probs) |}.

Definition model : Model := ("base", "cpu").

(** The globals after a successful start. *)
Definition started : Globals :=
  {| whisper_model := Some model; config := Config_init |}.

Definition clip : bytes := [x80; xc0; x40].

(** The same world with another answer of the model. *)
Definition world_of (result : TranscribeResult) (probs : dict string Q)
  : World :=
  {| Model := string * string;
     Mel := ndarray * Z;
     LanguageToken := Z;
     getenv := fun _ => None;
     cuda_is_available := false;
     librosa_load := fun b sr =>
       match b with
       | [] => Raise (LibraryError "empty file")
       | _ => Ok (map decode_sample b, sr)
       end;
     whisper_load_model := fun name device => Ok (name, device);
     dims_n_mels := fun _ => 80;
     model_transcribe := fun _ _ _ => Ok result;
     log_mel_spectrogram := fun t n => Ok (tensor_data t, n);
     model_detect_language := fun _ _ => Ok (50264, probs) |}.

(** A result whose second segment has no [start]. *)
Definition broken_result : TranscribeResult :=
  {| res_text := Some "a b";
     res_language := Some "ko";
     res_duration := None;
     res_segments :=
       Some [ {| seg_text := Some "a";
                 seg_start := Some 0%Q;
                 seg_end := Some 1%Q;
                 seg_avg_logprob := None |};
              {| seg_text := Some "b";
                 seg_start := None;
                 seg_end := Some 2%Q;
                 seg_avg_logprob := Some (- (1 # 2))%Q |} ];
     res_avg_logprob := None |}.

(** A clip of 480001 samples, one more than the window holds. *)
Definition long_clip : bytes := x80 :: repeat xc0 (Z.to_nat 480000).

(** An upload of 26214401 bytes, one more than [MAX_FILE_SIZE]. *)
Definition big_upload : bytes := x80 :: repeat x80 (Z.to_nat 26214400).

(** What [transcribe_stream] answers for [clip]. *)
Definition stream_response : StreamResponse.t :=
  {| StreamResponse.text := "annyeong";
     StreamResponse.segments :=
       [ {| StreamSegment.text := "annyeong";
            StreamSegment.start := 0%Q;
            StreamSegment.end_ := 3 # 2;
            StreamSegment.confidence := (1 - Qabs (- (1 # 4)))%Q |} ];
     StreamResponse.language := Some "ko" |}.

(** Two languages with the same probability, written differently. *)
Definition tie_probs : dict string Q :=
  [("ja", 1 # 4); ("en", 1 # 2); ("ko", 2 # 4)].

Definition broken_world : World := world_of broken_result [].
Definition tie_world : World := world_of demo_result tie_probs.

(** A result whose [avg_logprob], overall and in its one segment, is [p]. *)
Definition result_with (p : Q) : TranscribeResult :=
  {| res_text := Some "a";
     res_language := Some "ko";
     res_duration := None;
     res_segments :=
       Some [ {| seg_text := Some "a";
                 seg_start := Some 0%Q;
                 seg_end := Some 1%Q;
                 seg_avg_logprob := Some p |} ];
     res_avg_logprob := Some p |}.

Definition unsure_world : World := world_of (result_with (- 2)%Q) [].

End Demo.

(** The fixed-length window in the words of the specification: keep the
    first [k] samples of a longer array, fill a shorter one up with zeros
    at the end. *)
Definition spec_window (k : Z) (decoded : ndarray) : ndarray :=
  if len decoded >? k
  then firstn (Z.to_nat k) decoded
  else decoded ++ repeat 0%Q (Z.to_nat (k - len decoded)).

(** ** Proofs *)

(** *** Arrays *)

Lemma len_nonneg {A : Type} (l : list A) : 0 <= len l.
Proof. unfold len. lia. Qed.

Lemma len_app {A : Type} (l1 l2 : list A) : len (l1 ++ l2) = len l1 + len l2.
Proof. unfold len. rewrite length_app. lia. Qed.

Lemma len_repeat {A : Type} (x : A) (k : Z) :
  0 <= k -> len (repeat x (Z.to_nat k)) = k.
Proof. intros Hk. unfold len. rewrite repeat_length. lia. Qed.

Lemma slice_to_all {A : Type} (a : list A) (k : Z) :
  len a <= k -> slice_to a k = a.
Proof.
  intros Hk. pose proof (len_nonneg a) as Ha. unfold slice_to.
  destruct (Z.ltb_spec k 0) as [Hneg | _]; [lia |].
  apply firstn_all2. unfold len in Hk. lia.
Qed.

Lemma len_spec_window (k : Z) (decoded : ndarray) :
  0 <= k -> len (spec_window k decoded) = k.
Proof.
  intros Hk. unfold spec_window.
  destruct (Z.gtb_spec (len decoded) k) as [Hgt | Hle].
  - unfold len in *. rewrite length_firstn. lia.
  - rewrite len_app, len_repeat; lia.
Qed.

(** *** Computations that preserve the globals *)

Section Preserves.

Context {S E : Type}.

Lemma preserves_ret {A : Type} (a : A) :
  preserves_globals (ret a : M S E A).
Proof. intros g. reflexivity. Qed.

Lemma preserves_raise {A : Type} (e : Exn) :
  preserves_globals (raise e : M S E A).
Proof. intros g. reflexivity. Qed.

Lemma preserves_read {A : Type} (f : S -> A) :
  preserves_globals (read f : M S E A).
Proof. intros g. reflexivity. Qed.

Lemma preserves_lift {A : Type} (r : result A) :
  preserves_globals (lift r : M S E A).
Proof. intros g. reflexivity. Qed.

Lemma preserves_call {A : Type} (ev : E) (r : result A) :
  preserves_globals (call ev r : M S E A).
Proof. intros g. reflexivity. Qed.

Lemma preserves_bind {A B : Type} (m : M S E A) (k : A -> M S E B) :
  preserves_globals m ->
  (forall a, preserves_globals (k a)) ->
  preserves_globals (bind m k).
Proof.
  intros Hm Hk g. unfold bind, globals_after.
  specialize (Hm g). unfold globals_after in Hm.
  destruct (m g) as [[[a | e] g1] t1]; cbn [fst snd] in *; subst g1.
  - specialize (Hk a g). unfold globals_after in Hk.
    destruct (k a g) as [[r g2] t2]. exact Hk.
  - reflexivity.
Qed.

Lemma preserves_try_except {A : Type} (m : M S E A) (h : Exn -> M S E A) :
  preserves_globals m ->
  (forall e, preserves_globals (h e)) ->
  preserves_globals (try_except m h).
Proof.
  intros Hm Hh g. unfold try_except, globals_after.
  specialize (Hm g). unfold globals_after in Hm.
  destruct (m g) as [[[a | e] g1] t1]; cbn [fst snd] in *; subst g1.
  - reflexivity.
  - specialize (Hh e g). unfold globals_after in Hh.
    destruct (h e g) as [[r g2] t2]. exact Hh.
Qed.

End Preserves.

Create HintDb preserves.
#[export] Hint Resolve preserves_ret preserves_raise preserves_read
  preserves_lift preserves_call : preserves.

Ltac preserves_step :=
  lazymatch goal with
  | |- preserves_globals (bind _ _) => apply preserves_bind; [| intros ?]
  | |- preserves_globals (try_except _ _) =>
      apply preserves_try_except; [| intros ?]
  | |- preserves_globals (if ?c then _ else _) => destruct c
  | |- preserves_globals (match ?x with _ => _ end) => destruct x
  | |- _ => solve [auto with preserves]
  end.

Ltac preserves_tac := cbv zeta; repeat (preserves_step; cbv beta zeta).

(** *** Dictionaries and [max] *)

Lemma Qgtb_true (x y : Q) : Qgtb x y = true -> (y < x)%Q.
Proof.
  unfold Qgtb. intros H. apply negb_true_iff in H.
  apply Qnot_le_lt. intros Hle. apply Qle_bool_iff in Hle. congruence.
Qed.

Lemma Qgtb_false (x y : Q) : Qgtb x y = false -> (x <= y)%Q.
Proof.
  unfold Qgtb. intros H. apply negb_false_iff in H.
  now apply Qle_bool_iff.
Qed.

Lemma dict_get_key {V : Type} (d : dict string V) (k : string) :
  In k (keys d) -> exists v, dict_get d k = Some v.
Proof.
  induction d as [| [k' v'] d IH]; cbn [keys map fst In dict_get].
  - intros [].
  - intros Hin. destruct (String.eqb_spec k k') as [-> | Hne].
    + now exists v'.
    + destruct Hin as [-> | Hin]; [congruence | now apply IH].
Qed.

Lemma dict_get_in_keys {V : Type} (d : dict string V) (k : string) (v : V) :
  dict_get d k = Some v -> In k (keys d).
Proof.
  induction d as [| [k' v'] d IH]; cbn [keys map fst In dict_get].
  - discriminate.
  - destruct (String.eqb_spec k k') as [-> | Hne].
    + now left.
    + intros H. right. now apply IH.
Qed.

Section Max.

Context {A : Type} (key : A -> result Q).

Lemma max_scan_spec (l : list A) :
  forall (best : A) (kbest : Q),
    key best = Ok kbest ->
    (forall x, In x l -> exists v, key x = Ok v) ->
    exists (r : A) (kr : Q),
      max_scan key best kbest l = Ok r
      /\ key r = Ok kr
      /\ (r = best \/ In r l)
      /\ (kbest <= kr)%Q
      /\ (forall x v, In x l -> key x = Ok v -> (v <= kr)%Q).
Proof.
  induction l as [| x l IH]; intros best kbest Hbest Hall.
  - exists best, kbest. cbn [max_scan In].
    repeat split; auto using Qle_refl. intros x v [].
  - destruct (Hall x (or_introl eq_refl)) as [kx Hkx].
    assert (Hall' : forall y, In y l -> exists v, key y = Ok v)
      by (intros y Hy; apply Hall; now right).
    cbn [max_scan]. rewrite Hkx.
    destruct (Qgtb kx kbest) eqn:Hcmp.
    + destruct (IH x kx Hkx Hall') as (r & kr & Hrun & Hkr & Hin & Hle & Hmax).
      exists r, kr. repeat split; auto.
      * destruct Hin as [-> | Hin]; right; [now left | now right].
      * apply Qgtb_true in Hcmp. apply Qlt_le_weak.
        eapply Qlt_le_trans; eauto.
      * intros y v [<- | Hy] Hv; [| eauto].
        rewrite Hkx in Hv. injection Hv as <-. exact Hle.
    + destruct (IH best kbest Hbest Hall')
        as (r & kr & Hrun & Hkr & Hin & Hle & Hmax).
      exists r, kr. repeat split; auto.
      * destruct Hin as [-> | Hin]; [now left | right; now right].
      * intros y v [<- | Hy] Hv; [| eauto].
        rewrite Hkx in Hv. injection Hv as <-.
        apply Qgtb_false in Hcmp. eapply Qle_trans; eauto.
Qed.

Lemma py_max_spec (l : list A) :
  l <> [] ->
  (forall x, In x l -> exists v, key x = Ok v) ->
  exists (r : A) (kr : Q),
    py_max l key = Ok r
    /\ In r l
    /\ key r = Ok kr
    /\ (forall x v, In x l -> key x = Ok v -> (v <= kr)%Q).
Proof.
  destruct l as [| x l]; [congruence |]. intros _ Hall.
  destruct (Hall x (or_introl eq_refl)) as [kx Hkx].
  cbn [py_max]. rewrite Hkx.
  destruct (max_scan_spec l x kx Hkx) as (r & kr & Hrun & Hkr & Hin & Hle & Hmax).
  { intros y Hy. apply Hall. now right. }
  exists r, kr. repeat split; auto.
  - destruct Hin as [-> | Hin]; [now left | now right].
  - intros y v [<- | Hy] Hv; [| eauto].
    rewrite Hkx in Hv. injection Hv as <-. exact Hle.
Qed.

End Max.

(** [max(probs, key=probs.get)] followed by [probs[...]]. *)
Lemma probs_argmax (probs : dict string Q) :
  probs <> [] ->
  exists (k : string) (c : Q),
    py_max (keys probs) (probs_get probs) = Ok k
    /\ dict_item probs k = Ok c
    /\ In k (keys probs)
    /\ dict_get probs k = Some c
    /\ (forall k' v, dict_get probs k' = Some v -> (v <= c)%Q).
Proof.
  intros Hne.
  destruct (py_max_spec (probs_get probs) (keys probs))
    as (k & c & Hrun & Hin & Hk & Hmax).
  - destruct probs; [congruence | discriminate].
  - intros k Hk. destruct (dict_get_key probs k Hk) as [v Hv].
    exists v. unfold probs_get. now rewrite Hv.
  - exists k, c. unfold probs_get in Hk.
    destruct (dict_get probs k) as [v |] eqn:Hget; [| discriminate].
    injection Hk as ->.
    repeat split; auto.
    + unfold dict_item. now rewrite Hget.
    + intros k' v' Hget'. apply (Hmax k').
      * eapply dict_get_in_keys; eauto.
      * unfold probs_get. now rewrite Hget'.
Qed.

Section ServerFacts.

Context {W : World}.

(** *** What the handlers compute *)

(** What [preprocess_audio] does under the module's configuration. *)
Lemma preprocess_audio_run (wm : option Model) (audio_file : bytes) :
  preprocess_audio audio_file (at_config wm)
  = (match librosa_load audio_file 16000 with
     | Ok (decoded, _) => Ok (spec_window 480000 decoded)
     | Raise e => Raise e
     end, at_config wm, []).
Proof.
  unfold preprocess_audio, try_except, bind, read, lift, ret, raise.
  cbn [config at_config SAMPLE_RATE Config_init].
  destruct (librosa_load audio_file 16000) as [[decoded sr] | e]; [| reflexivity].
  change (16000 * 30) with 480000.
  unfold astype_float32, spec_window.
  destruct (Z.gtb_spec (len decoded) 480000) as [Hgt | Hle].
  - unfold slice_to. destruct (Z.ltb_spec 480000 0); [lia | reflexivity].
  - unfold np_pad.
    destruct (Z.ltb_spec (480000 - len decoded) 0); [lia |].
    reflexivity.
Qed.

Lemma too_large_detail :
  ("File too large. Maximum size: " ++ str_int 26214400 ++ " bytes")%string
  = "File too large. Maximum size: 26214400 bytes".
Proof. reflexivity. Qed.

Ltac comp_unfold :=
  cbv beta iota delta
    [bind try_except read write lift ret raise call fmap transcribe_with
     outcome globals_after trace fst snd];
  cbn [config whisper_model at_config MAX_FILE_SIZE SAMPLE_RATE Config_init];
  change (25 * 1024 * 1024) with 26214400;
  change (16000 * 30) with 480000.

(** What [transcribe_audio] does once the model is loaded. *)
Lemma transcribe_audio_run (m : Model) (file : bytes) (model : string)
  (language : option string) (response_format : string) (temperature : Q)
  (timestamp_granularities : option string) :
  transcribe_audio file model language response_format temperature
    timestamp_granularities (at_config (Some m))
  = if len file >? 26214400
    then (Raise (HTTPException 500
            "Transcription failed: 413: File too large. Maximum size: 26214400 bytes"),
          at_config (Some m), [])
    else
      match librosa_load file 16000 with
      | Raise e =>
          (Raise (HTTPException 500
                    ("Transcription failed: " ++ str_exn e)%string),
           at_config (Some m), [])
      | Ok (decoded, _) =>
          let audio_data := spec_window 480000 decoded in
          let options :=
            transcription_options language temperature
              timestamp_granularities in
          (match model_transcribe m audio_data options with
           | Raise e =>
               Raise (HTTPException 500
                        ("Transcription failed: " ++ str_exn e)%string)
           | Ok result =>
               match res_text result with
               | None =>
                   Raise (HTTPException 500 "Transcription failed: 'text'")
               | Some text =>
                   Ok {| TranscriptionResponse.text := strip text;
                         TranscriptionResponse.language := res_language result;
                         TranscriptionResponse.duration := res_duration result;
                         TranscriptionResponse.segments := res_segments result;
                         TranscriptionResponse.confidence :=
                           match res_avg_logprob result with
                           | Some p => Some (overall_confidence p)
                           | None => None
                           end |}
               end
           end,
           at_config (Some m), [CallTranscribe m audio_data options])
      end.
Proof.
  unfold transcribe_audio. comp_unfold.
  destruct (Z.gtb_spec (len file) 26214400) as [Hbig | Hok].
  - comp_unfold. rewrite too_large_detail. reflexivity.
  - comp_unfold. fold (at_config (Some m)). rewrite preprocess_audio_run.
    destruct (librosa_load file 16000) as [[decoded sr] | e]; [| reflexivity].
    comp_unfold.
    destruct (model_transcribe m (spec_window 480000 decoded)
                (transcription_options language temperature
                   timestamp_granularities)) as [result | e];
      [| reflexivity].
    destruct (res_text result) as [text |]; reflexivity.
Qed.

(** What [detect_language] does once the model is loaded. *)
Lemma detect_language_run (m : Model) (file : bytes) :
  detect_language file (at_config (Some m))
  = if len file >? 26214400
    then (Raise (HTTPException 500
                   "Language detection failed: 413: File too large"),
          at_config (Some m), [])
    else
      match librosa_load file 16000 with
      | Raise e =>
          (Raise (HTTPException 500
                    ("Language detection failed: " ++ str_exn e)%string),
           at_config (Some m), [])
      | Ok (decoded, _) =>
          let audio_tensor :=
            {| tensor_data := spec_window 480000 decoded;
               tensor_device := DEVICE Config_init |} in
          match log_mel_spectrogram audio_tensor (dims_n_mels m) with
          | Raise e =>
              (Raise (HTTPException 500
                        ("Language detection failed: " ++ str_exn e)%string),
               at_config (Some m),
               [CallLogMel audio_tensor (dims_n_mels m)])
          | Ok mel =>
              (match model_detect_language m mel with
               | Raise e =>
                   Raise (HTTPException 500
                            ("Language detection failed: " ++ str_exn e)%string)
               | Ok (_, probs) =>
                   match py_max (keys probs) (probs_get probs) with
                   | Raise e =>
                       Raise (HTTPException 500
                                ("Language detection failed: "
                                 ++ str_exn e)%string)
                   | Ok detected_language =>
                       match dict_item probs detected_language with
                       | Raise e =>
                           Raise (HTTPException 500
                                    ("Language detection failed: "
                                     ++ str_exn e)%string)
                       | Ok confidence =>
                           Ok {| LanguageDetectionResponse.detected_language :=
                                   detected_language;
                                 LanguageDetectionResponse.confidence :=
                                   confidence |}
                       end
                   end
               end,
               at_config (Some m),
               [CallLogMel audio_tensor (dims_n_mels m);
                CallDetectLanguage m mel])
          end
      end.
Proof.
  unfold detect_language. comp_unfold.
  destruct (Z.gtb_spec (len file) 26214400) as [Hbig | Hok].
  - reflexivity.
  - comp_unfold. fold (at_config (Some m)). rewrite preprocess_audio_run.
    destruct (librosa_load file 16000) as [[decoded sr] | e]; [| reflexivity].
    comp_unfold.
    rewrite slice_to_all by (rewrite len_spec_window; lia).
    unfold tensor_to, torch_from_numpy. cbn [tensor_data].
    destruct (log_mel_spectrogram _ (dims_n_mels m)) as [mel | e];
      [| reflexivity].
    destruct (model_detect_language m mel) as [[tok probs] | e];
      [| reflexivity].
    destruct (py_max (keys probs) (probs_get probs)) as [k | e];
      [| reflexivity].
    destruct (dict_item probs k) as [c | e]; reflexivity.
Qed.

Lemma overall_confidence_value (p : Q) : (overall_confidence p == 1 + p)%Q.
Proof. unfold overall_confidence. field. Qed.

Lemma preprocess_audio_outcome (wm : option Model) (file : bytes)
  (audio_data : ndarray) :
  outcome (preprocess_audio file (at_config wm)) = Ok audio_data ->
  exists decoded sr,
    librosa_load file 16000 = Ok (decoded, sr)
    /\ audio_data = spec_window 480000 decoded.
Proof.
  rewrite preprocess_audio_run. unfold outcome. cbn [fst].
  destruct (librosa_load file 16000) as [[decoded sr] | e]; [| discriminate].
  intros H. injection H as <-. now exists decoded, sr.
Qed.

Lemma within_limit (wm : option Model) (file : bytes) :
  len file <= MAX_FILE_SIZE (config (at_config wm)) ->
  (len file >? 26214400) = false.
Proof.
  change (MAX_FILE_SIZE (config (at_config wm))) with 26214400.
  intros H. destruct (Z.gtb_spec (len file) 26214400); [lia | reflexivity].
Qed.

Lemma over_limit (wm : option Model) (file : bytes) :
  len file > MAX_FILE_SIZE (config (at_config wm)) ->
  (len file >? 26214400) = true.
Proof.
  change (MAX_FILE_SIZE (config (at_config wm))) with 26214400.
  intros H. destruct (Z.gtb_spec (len file) 26214400); [reflexivity | lia].
Qed.

(** *** Handlers and the globals *)

Lemma preprocess_audio_preserves (audio_file : bytes) :
  preserves_globals (preprocess_audio audio_file).
Proof. unfold preprocess_audio. preserves_tac. Qed.

Lemma transcribe_with_preserves (wm : option Model) (audio : ndarray)
  (options : Options) :
  preserves_globals (transcribe_with wm audio options).
Proof. unfold transcribe_with. preserves_tac. Qed.

#[local] Hint Resolve preprocess_audio_preserves transcribe_with_preserves
  : preserves.

Lemma health_check_preserves (now : string) :
  preserves_globals (health_check now).
Proof. unfold health_check. preserves_tac. Qed.

Lemma get_models_preserves : preserves_globals get_models.
Proof. unfold get_models. preserves_tac. Qed.

Lemma transcribe_audio_preserves (file : bytes) (model : string)
  (language : option string) (response_format : string) (temperature : Q)
  (timestamp_granularities : option string) :
  preserves_globals
    (transcribe_audio file model language response_format temperature
       timestamp_granularities).
Proof. unfold transcribe_audio. preserves_tac. Qed.

Lemma detect_language_preserves (file : bytes) :
  preserves_globals (detect_language file).
Proof. unfold detect_language. preserves_tac. Qed.

Lemma transcribe_quick_preserves (file : bytes) :
  preserves_globals (transcribe_quick file).
Proof. unfold transcribe_quick. preserves_tac. Qed.

Lemma transcribe_stream_preserves (file : bytes) :
  preserves_globals (transcribe_stream file).
Proof. unfold transcribe_stream. preserves_tac. Qed.

Lemma get_info_preserves : preserves_globals get_info.
Proof. unfold get_info. preserves_tac. Qed.

#[local] Hint Resolve health_check_preserves get_models_preserves
  transcribe_audio_preserves detect_language_preserves
  transcribe_quick_preserves transcribe_stream_preserves get_info_preserves
  : preserves.

Lemma handle_preserves (req : Request) : preserves_globals (handle req).
Proof. destruct req; unfold handle, fmap; preserves_tac. Qed.

Lemma startup_event_globals (g : Globals) :
  globals_after (startup_event g)
  = match whisper_load_model (MODEL_NAME (config g)) (DEVICE (config g)) with
    | Ok m => {| whisper_model := Some m; config := config g |}
    | Raise _ => g
    end.
Proof.
  unfold startup_event, load_whisper_model. comp_unfold.
  destruct (whisper_load_model _ _); reflexivity.
Qed.

(** Every reachable state carries the configuration of the import. *)
Lemma reachable_config (g : Globals) :
  reachable g -> g = at_config (whisper_model g).
Proof.
  induction 1 as [| g Hg IH | g req Hg IH].
  - reflexivity.
  - rewrite startup_event_globals.
    destruct (whisper_load_model _ _) as [m | e]; [| exact IH].
    cbn [whisper_model]. unfold at_config. f_equal.
    rewrite IH. reflexivity.
  - rewrite (handle_preserves req g). exact IH.
Qed.

(** *** Further facts about the handlers *)

(** [preprocess_audio] calls nothing recorded and assigns nothing. *)
Lemma preprocess_audio_pure (audio_file : bytes) (g : Globals) :
  exists r : result ndarray, preprocess_audio audio_file g = (r, g, []).
Proof.
  unfold preprocess_audio. comp_unfold.
  destruct (librosa_load audio_file (SAMPLE_RATE (config g)))
    as [[decoded sr] | e]; comp_unfold; [| eauto].
  destruct (len (astype_float32 decoded) >? SAMPLE_RATE (config g) * 30);
    comp_unfold; [eauto |].
  destruct (np_pad _ _ _); eauto.
Qed.

(** What [transcribe_quick] does under the module's configuration. *)
Lemma transcribe_quick_run (wm : option Model) (file : bytes) :
  transcribe_quick file (at_config wm)
  = match librosa_load file 16000 with
    | Raise e => (Raise (HTTPException 500 (str_exn e)), at_config wm, [])
    | Ok (decoded, _) =>
        let audio_data := spec_window 480000 decoded in
        match wm with
        | None =>
            (Raise (HTTPException 500
                      "'NoneType' object has no attribute 'transcribe'"),
             at_config wm, [])
        | Some m =>
            (match model_transcribe m audio_data quick_options with
             | Raise e => Raise (HTTPException 500 (str_exn e))
             | Ok result =>
                 match res_text result with
                 | None => Raise (HTTPException 500 "'text'")
                 | Some text => Ok [("text", strip text)]
                 end
             end,
             at_config wm, [CallTranscribe m audio_data quick_options])
        end
    end.
Proof.
  unfold transcribe_quick. comp_unfold.
  fold (at_config wm). rewrite preprocess_audio_run.
  destruct (librosa_load file 16000) as [[decoded sr] | e]; [| reflexivity].
  comp_unfold. destruct wm as [m |]; [| reflexivity].
  fold quick_options.
  destruct (model_transcribe m (spec_window 480000 decoded) quick_options)
    as [result | e]; [| reflexivity].
  destruct (res_text result) as [text |]; reflexivity.
Qed.

(** What [transcribe_stream] does under the module's configuration. *)
Lemma transcribe_stream_run (wm : option Model) (file : bytes) :
  transcribe_stream file (at_config wm)
  = match librosa_load file 16000 with
    | Raise e => (Raise (HTTPException 500 (str_exn e)), at_config wm, [])
    | Ok (decoded, _) =>
        let audio_data := spec_window 480000 decoded in
        match wm with
        | None =>
            (Raise (HTTPException 500
                      "'NoneType' object has no attribute 'transcribe'"),
             at_config wm, [])
        | Some m =>
            (match model_transcribe m audio_data stream_options with
             | Raise e => Raise (HTTPException 500 (str_exn e))
             | Ok result =>
                 match
                   map_result stream_segment
                     (match res_segments result with
                      | Some l => l
                      | None => []
                      end)
                 with
                 | Raise e => Raise (HTTPException 500 (str_exn e))
                 | Ok segments =>
                     match res_text result with
                     | None => Raise (HTTPException 500 "'text'")
                     | Some text =>
                         Ok {| StreamResponse.text := strip text;
                               StreamResponse.segments := segments;
                               StreamResponse.language := res_language result |}
                     end
                 end
             end,
             at_config wm, [CallTranscribe m audio_data stream_options])
        end
    end.
Proof.
  unfold transcribe_stream. comp_unfold.
  fold (at_config wm). rewrite preprocess_audio_run.
  destruct (librosa_load file 16000) as [[decoded sr] | e]; [| reflexivity].
  comp_unfold. destruct wm as [m |]; [| reflexivity].
  fold stream_options.
  destruct (model_transcribe m (spec_window 480000 decoded) stream_options)
    as [result | e]; [| reflexivity].
  destruct (map_result stream_segment _) as [segments | e]; [| reflexivity].
  destruct (res_text result) as [text |]; reflexivity.
Qed.

(** A [try] block whose handler raises [HTTPException(500, ...)] ends in
    a value or in such an exception. *)
Lemma try_except_500 {A : Type} (body : Comp A) (detail : Exn -> string)
  (g : Globals) (e : Exn) :
  outcome (try_except body (fun e => raise (HTTPException 500 (detail e))) g)
  = Raise e ->
  exists d, e = HTTPException 500 d.
Proof.
  unfold try_except, raise, outcome.
  destruct (body g) as [[[a | e'] g1] t1]; cbn [fst]; intros H.
  - discriminate.
  - injection H as <-. eauto.
Qed.

Lemma outcome_bind_read {A B : Type} (f : Globals -> A) (k : A -> Comp B)
  (g : Globals) :
  outcome (bind (read f) k g) = outcome (k (f g) g).
Proof.
  unfold bind, read, outcome.
  destruct (k (f g) g) as [[r g2] t2]. reflexivity.
Qed.

Lemma map_result_Forall2 {A B : Type} (f : A -> result B) (l : list A) :
  forall ys, map_result f l = Ok ys -> Forall2 (fun x y => f x = Ok y) l ys.
Proof.
  induction l as [| x l IH]; cbn [map_result]; intros ys H.
  - injection H as <-. constructor.
  - destruct (f x) as [y | e] eqn:Hx; [| discriminate].
    destruct (map_result f l) as [ys' | e]; [| discriminate].
    injection H as <-. constructor; auto.
Qed.


Lemma stream_segment_ok (segment : Segment) (streamed : StreamSegment.t) :
  stream_segment segment = Ok streamed ->
  (exists text,
     seg_text segment = Some text
     /\ StreamSegment.text streamed = strip text)
  /\ seg_start segment = Some (StreamSegment.start streamed)
  /\ seg_end segment = Some (StreamSegment.end_ streamed)
  /\ StreamSegment.confidence streamed
     = segment_confidence
         (match seg_avg_logprob segment with
          | Some p => p
          | None => (-1)%Q
          end).
Proof.
  unfold stream_segment, item.
  destruct (seg_text segment) as [text |]; [| discriminate].
  destruct (seg_start segment) as [start |]; [| discriminate].
  destruct (seg_end segment) as [end_ |]; [| discriminate].
  intros H. injection H as <-.
  cbn [StreamSegment.text StreamSegment.start StreamSegment.end_
       StreamSegment.confidence].
  split; [exists text; split; reflexivity | repeat split; reflexivity].
Qed.


(** *** Which maximum [max] returns *)

Lemma max_scan_first {A : Type} (key : A -> result Q) (l : list A) :
  forall (best : A) (kbest : Q) (r : A),
    key best = Ok kbest ->
    max_scan key best kbest l = Ok r ->
    (r = best /\ (forall x v, In x l -> key x = Ok v -> (v <= kbest)%Q))
    \/ (exists l1 l2 kr,
          l = l1 ++ r :: l2
          /\ key r = Ok kr
          /\ (kbest < kr)%Q
          /\ (forall x v, In x l1 -> key x = Ok v -> (v < kr)%Q)
          /\ (forall x v, In x l2 -> key x = Ok v -> (v <= kr)%Q)).
Proof.
  induction l as [| x l IH]; intros best kbest r Hbest Hrun.
  - cbn [max_scan] in Hrun. injection Hrun as <-. left.
    split; [reflexivity |]. intros x v [].
  - cbn [max_scan] in Hrun.
    destruct (key x) as [kx |] eqn:Hkx; [| discriminate].
    destruct (Qgtb kx kbest) eqn:Hcmp.
    + apply Qgtb_true in Hcmp. right.
      destruct (IH x kx r Hkx Hrun)
        as [[-> Hmax] | (l1 & l2 & kr & -> & Hkr & Hlt & Hl1 & Hl2)].
      * exists [], l, kx. repeat split; auto. intros y v [].
      * exists (x :: l1), l2, kr. repeat split; auto.
        -- eapply Qlt_trans; eauto.
        -- intros y v [<- | Hy] Hv; [| eauto].
           rewrite Hkx in Hv. injection Hv as <-. exact Hlt.
    + apply Qgtb_false in Hcmp.
      destruct (IH best kbest r Hbest Hrun)
        as [[-> Hmax] | (l1 & l2 & kr & -> & Hkr & Hlt & Hl1 & Hl2)].
      * left. split; [reflexivity |].
        intros y v [<- | Hy] Hv; [| eauto].
        rewrite Hkx in Hv. injection Hv as <-. exact Hcmp.
      * right. exists (x :: l1), l2, kr. repeat split; auto.
        intros y v [<- | Hy] Hv; [| eauto].
        rewrite Hkx in Hv. injection Hv as <-.
        eapply Qle_lt_trans; eauto.
Qed.

Lemma py_max_first {A : Type} (key : A -> result Q) (l : list A) (r : A) :
  py_max l key = Ok r ->
  exists l1 l2 kr,
    l = l1 ++ r :: l2
    /\ key r = Ok kr
    /\ (forall x v, In x l1 -> key x = Ok v -> (v < kr)%Q)
    /\ (forall x v, In x l2 -> key x = Ok v -> (v <= kr)%Q).
Proof.
  destruct l as [| x l]; cbn [py_max]; [discriminate |].
  destruct (key x) as [kx |] eqn:Hkx; [| discriminate].
  intros Hrun.
  destruct (max_scan_first key l x kx r Hkx Hrun)
    as [[-> Hmax] | (l1 & l2 & kr & -> & Hkr & Hlt & Hl1 & Hl2)].
  - exists [], l, kx. repeat split; auto. intros y v [].
  - exists (x :: l1), l2, kr. repeat split; auto.
    intros y v [<- | Hy] Hv; [| eauto].
    rewrite Hkx in Hv. injection Hv as <-. exact Hlt.
Qed.

(** A segment list in which every segment has its [text], [start] and
    [end] goes through the loop of [transcribe_stream] whole. *)
Lemma stream_segments_total (segments : list Segment) :
  Forall
    (fun segment =>
       seg_text segment <> None /\ seg_start segment <> None
       /\ seg_end segment <> None)
    segments ->
  exists streamed : list StreamSegment.t,
    map_result stream_segment segments = Ok streamed
    /\ Forall2
         (fun segment s =>
            StreamSegment.confidence s
            = segment_confidence
                (match seg_avg_logprob segment with
                 | Some p => p
                 | None => (-1)%Q
                 end))
         segments streamed.
Proof.
  induction 1 as [| segment segments (Htext & Hstart & Hend) _ IH].
  - exists []. split; [reflexivity | constructor].
  - destruct IH as (streamed & Hrun & Hall).
    cbn [map_result]. rewrite Hrun. unfold stream_segment, item.
    destruct (seg_text segment) as [text |]; [| congruence].
    destruct (seg_start segment) as [start |]; [| congruence].
    destruct (seg_end segment) as [end_ |]; [| congruence].
    eexists. split; [reflexivity |].
    constructor; [reflexivity | exact Hall].
Qed.


(** *** The properties of the specification *)

(** C1.  Whenever [librosa.load] at 16000 Hz decodes the upload into [n]
    samples, [preprocess_audio] returns an array of exactly
    [SAMPLE_RATE * 30 = 480000] samples, touches no global and calls
    nothing: the first 480000 decoded samples when [n > 480000], and
    otherwise the decoded samples followed by [480000 - n] zeros. *)
Theorem preprocess_audio_fixed_window
  (wm : option Model) (audio_file : bytes) (decoded : ndarray) (sr : Z) :
  librosa_load audio_file 16000 = Ok (decoded, sr) ->
  exists out : ndarray,
    preprocess_audio audio_file (at_config wm) = (Ok out, at_config wm, [])
    /\ SAMPLE_RATE (config (at_config wm)) * 30 = 480000
    /\ len out = 480000
    /\ (len decoded > 480000 -> out = firstn (Z.to_nat 480000) decoded)
    /\ (len decoded <= 480000 ->
        out = decoded ++ repeat 0%Q (Z.to_nat (480000 - len decoded))).
Proof.
  intros Hload. exists (spec_window 480000 decoded).
  rewrite preprocess_audio_run, Hload.
  split; [reflexivity |]. split; [reflexivity |].
  split; [apply len_spec_window; lia |].
  unfold spec_window.
  destruct (Z.gtb_spec (len decoded) 480000) as [Hgt | Hle];
    split; intros Hn; solve [reflexivity | lia].
Qed.

(** C2.  When [transcribe_audio] answers with a response built from the
    model's result: if the result has the key [avg_logprob] with value
    [p], the response's confidence is [1.0 - (p / -1.0)], which is
    [1 + p]; if the key is absent, the confidence is [None]. *)
Theorem transcribe_audio_confidence
  (m : Model) (file : bytes) (model : string) (language : option string)
  (response_format : string) (temperature : Q)
  (timestamp_granularities : option string)
  (audio_data : ndarray) (result : TranscribeResult) (text : string) :
  len file <= MAX_FILE_SIZE (config (at_config (Some m))) ->
  outcome (preprocess_audio file (at_config (Some m))) = Ok audio_data ->
  model_transcribe m audio_data
    (transcription_options language temperature timestamp_granularities)
  = Ok result ->
  res_text result = Some text ->
  exists response : TranscriptionResponse.t,
    outcome (transcribe_audio file model language response_format
               temperature timestamp_granularities (at_config (Some m)))
    = Ok response
    /\ match res_avg_logprob result with
       | Some p =>
           TranscriptionResponse.confidence response
           = Some (1 - (p / -1))%Q
           /\ (1 - (p / -1) == 1 + p)%Q
       | None => TranscriptionResponse.confidence response = None
       end.
Proof.
  intros Hsize Hpre Hmodel Htext.
  destruct (preprocess_audio_outcome _ _ _ Hpre) as (decoded & sr & Hload & ->).
  rewrite transcribe_audio_run, (within_limit _ _ Hsize), Hload.
  cbv zeta. rewrite Hmodel, Htext. unfold outcome. cbn [fst].
  eexists. split; [reflexivity |].
  cbn [TranscriptionResponse.confidence].
  destruct (res_avg_logprob result) as [p |]; [| reflexivity].
  split; [reflexivity | apply overall_confidence_value].
Qed.


(** Above zero the two expressions part: [1 + p] against [1 - p]. *)
Lemma confidence_transforms_above_zero (p : Q) :
  (0 < p)%Q -> (segment_confidence p < overall_confidence p)%Q.
Proof.
  intros Hp. rewrite overall_confidence_value. unfold segment_confidence.
  rewrite (Qabs_pos p) by now apply Qlt_le_weak.
  apply Qplus_lt_r. apply Qlt_trans with 0%Q; [| exact Hp].
  change 0%Q with (- 0)%Q. now apply Qopp_lt_compat.
Qed.

(** C4.  When the model's [detect_language] call returns a non-empty
    dictionary [probs], the handler answers with a key of [probs] whose
    probability no other key exceeds, and with that key's probability as
    the confidence: the confidence is the maximum of the dictionary. *)
Theorem detect_language_returns_most_probable
  (m : Model) (file : bytes) (audio_data : ndarray) (mel : Mel)
  (tok : LanguageToken) (probs : dict string Q) :
  len file <= MAX_FILE_SIZE (config (at_config (Some m))) ->
  outcome (preprocess_audio file (at_config (Some m))) = Ok audio_data ->
  log_mel_spectrogram
    {| tensor_data := audio_data;
       tensor_device := DEVICE (config (at_config (Some m))) |}
    (dims_n_mels m) = Ok mel ->
  model_detect_language m mel = Ok (tok, probs) ->
  probs <> [] ->
  exists response : LanguageDetectionResponse.t,
    outcome (detect_language file (at_config (Some m))) = Ok response
    /\ In (LanguageDetectionResponse.detected_language response) (keys probs)
    /\ dict_get probs (LanguageDetectionResponse.detected_language response)
       = Some (LanguageDetectionResponse.confidence response)
    /\ (forall k v,
          dict_get probs k = Some v ->
          (v <= LanguageDetectionResponse.confidence response)%Q).
Proof.
  intros Hsize Hpre Hmel Hdetect Hne.
  destruct (preprocess_audio_outcome _ _ _ Hpre) as (decoded & sr & Hload & ->).
  destruct (probs_argmax probs Hne) as (k & c & Hmax & Hitem & Hin & Hget & Hall).
  rewrite detect_language_run, (within_limit _ _ Hsize), Hload.
  cbv zeta. cbn [config at_config] in Hmel.
  rewrite Hmel, Hdetect, Hmax, Hitem. unfold outcome. cbn [fst].
  eexists. split; [reflexivity |].
  cbn [LanguageDetectionResponse.detected_language
       LanguageDetectionResponse.confidence].
  auto.
Qed.

(** C5.  For an upload within the size limit, with the model loaded:
    when [preprocess_audio] turns the upload into [audio_data], the
    handler of [/v1/audio/transcriptions] makes exactly one call into the
    library, [transcribe] on [audio_data] itself, and answers with the
    model's result reshaped into a response; when [preprocess_audio]
    raises, the model is not called at all.  The globals stay as they
    were. *)
Theorem transcribe_audio_calls_model_once
  (m : Model) (file : bytes) (model : string) (language : option string)
  (response_format : string) (temperature : Q)
  (timestamp_granularities : option string) :
  len file <= MAX_FILE_SIZE (config (at_config (Some m))) ->
  let run :=
    transcribe_audio file model language response_format temperature
      timestamp_granularities (at_config (Some m)) in
  let options :=
    transcription_options language temperature timestamp_granularities in
  globals_after run = at_config (Some m)
  /\ match outcome (preprocess_audio file (at_config (Some m))) with
     | Ok audio_data =>
         trace run = [CallTranscribe m audio_data options]
         /\ match model_transcribe m audio_data options with
            | Ok result =>
                match res_text result with
                | Some text =>
                    outcome run
                    = Ok {| TranscriptionResponse.text := strip text;
                            TranscriptionResponse.language :=
                              res_language result;
                            TranscriptionResponse.duration :=
                              res_duration result;
                            TranscriptionResponse.segments :=
                              res_segments result;
                            TranscriptionResponse.confidence :=
                              option_map overall_confidence
                                (res_avg_logprob result) |}
                | None =>
                    outcome run
                    = Raise (HTTPException 500 "Transcription failed: 'text'")
                end
            | Raise e =>
                outcome run
                = Raise (HTTPException 500
                           ("Transcription failed: " ++ str_exn e)%string)
            end
     | Raise e =>
         trace run = []
         /\ outcome run
            = Raise (HTTPException 500
                       ("Transcription failed: " ++ str_exn e)%string)
     end.
Proof.
  intros Hsize run options. subst run options.
  rewrite transcribe_audio_run, preprocess_audio_run, (within_limit _ _ Hsize).
  unfold trace, globals_after, outcome. cbn [fst snd].
  destruct (librosa_load file 16000) as [[decoded sr] | e];
    [| repeat split; reflexivity].
  cbv zeta. cbn [fst snd].
  split; [reflexivity |]. split; [reflexivity |].
  destruct (model_transcribe m (spec_window 480000 decoded) _)
    as [result | e]; [| reflexivity].
  destruct (res_text result) as [text |]; [| reflexivity].
  destruct (res_avg_logprob result); reflexivity.
Qed.

(** C6.  An upload of more than [MAX_FILE_SIZE = 25 * 1024 * 1024] bytes
    makes both [transcribe_audio] and [detect_language] raise without a
    single call into the library.  With the model loaded, the 413 raised
    inside the [try] block is caught by [except Exception]: the client
    sees status 500, and the 413 and its detail inside the message. *)
Theorem oversized_upload_is_refused
  (wm : option Model) (file : bytes) (model : string)
  (language : option string) (response_format : string) (temperature : Q)
  (timestamp_granularities : option string) :
  len file > MAX_FILE_SIZE (config (at_config wm)) ->
  let run_t :=
    transcribe_audio file model language response_format temperature
      timestamp_granularities (at_config wm) in
  let run_d := detect_language file (at_config wm) in
  MAX_FILE_SIZE (config (at_config wm)) = 25 * 1024 * 1024
  /\ (exists e, outcome run_t = Raise e) /\ trace run_t = []
  /\ (exists e, outcome run_d = Raise e) /\ trace run_d = []
  /\ (wm <> None ->
      outcome run_t
      = Raise (HTTPException 500
          "Transcription failed: 413: File too large. Maximum size: 26214400 bytes")
      /\ client_status (outcome run_t) = 500
      /\ outcome run_d
         = Raise (HTTPException 500
                    "Language detection failed: 413: File too large")
      /\ client_status (outcome run_d) = 500).
Proof.
  intros Hsize run_t run_d. subst run_t run_d.
  split; [reflexivity |].
  destruct wm as [m |].
  - rewrite transcribe_audio_run, detect_language_run, (over_limit _ _ Hsize).
    unfold outcome, trace. cbn [fst snd client_status].
    repeat split; eauto.
  - unfold outcome, trace, transcribe_audio, detect_language.
    comp_unfold.
    repeat split; eauto; congruence.
Qed.

(** C7.  [Config.DEVICE] is ["cuda"] exactly when
    [torch.cuda.is_available()] holds as the module is imported and
    ["cpu"] exactly when it does not; the startup hook makes one call,
    [whisper.load_model] with the configured name on that device, and
    stores the model it returns in the global [whisper_model]. *)
Theorem model_is_loaded_on_configured_device :
  (DEVICE Config_init = "cuda" <-> cuda_is_available = true)
  /\ (DEVICE Config_init = "cpu" <-> cuda_is_available = false)
  /\ whisper_model module_init = None
  /\ trace (startup_event module_init)
     = [CallLoadModel (MODEL_NAME Config_init) (DEVICE Config_init)]
  /\ match whisper_load_model (MODEL_NAME Config_init) (DEVICE Config_init) with
     | Ok m =>
         outcome (startup_event module_init) = Ok tt
         /\ globals_after (startup_event module_init) = at_config (Some m)
     | Raise e =>
         outcome (startup_event module_init) = Raise e
         /\ globals_after (startup_event module_init) = module_init
     end.
Proof.
  split; [| split; [| split; [reflexivity |]]].
  - cbn [DEVICE Config_init].
    destruct cuda_is_available; split; intros H; congruence.
  - cbn [DEVICE Config_init].
    destruct cuda_is_available; split; intros H; congruence.
  - unfold startup_event, load_whisper_model, module_init.
    comp_unfold.
    destruct (whisper_load_model (MODEL_NAME Config_init) (DEVICE Config_init))
      as [m | e]; comp_unfold; repeat split; reflexivity.
Qed.

(** C8.  Whatever the request and whatever the globals, handling it
    leaves [whisper_model] and [config] as they were.  The startup hook
    is the one computation that assigns [whisper_model]: it stores the
    model [whisper.load_model] returns and leaves [config] alone. *)
Theorem handlers_preserve_globals (g : Globals) :
  (forall req : Request,
     whisper_model (globals_after (handle req g)) = whisper_model g
     /\ config (globals_after (handle req g)) = config g)
  /\ globals_after (startup_event g)
     = match whisper_load_model (MODEL_NAME (config g)) (DEVICE (config g)) with
       | Ok m => {| whisper_model := Some m; config := config g |}
       | Raise _ => g
       end.
Proof.
  split.
  - intros req. now rewrite (handle_preserves req g).
  - apply startup_event_globals.
Qed.

(** C9.  Whatever array [preprocess_audio] returns, the slice
    [audio_data[:SAMPLE_RATE * 30]] that [detect_language] takes of it is
    that array itself, since it has exactly [SAMPLE_RATE * 30] samples;
    so the tensor the handler computes the spectrogram of holds the whole
    preprocessed array. *)
Theorem detect_language_slice_is_identity
  (wm : option Model) (file : bytes) (audio_data : ndarray) :
  outcome (preprocess_audio file (at_config wm)) = Ok audio_data ->
  len audio_data = SAMPLE_RATE (config (at_config wm)) * 30
  /\ slice_to audio_data (SAMPLE_RATE (config (at_config wm)) * 30)
     = audio_data
  /\ (forall m : Model,
        wm = Some m ->
        len file <= MAX_FILE_SIZE (config (at_config wm)) ->
        hd_error (trace (detect_language file (at_config wm)))
        = Some (CallLogMel
                  {| tensor_data := audio_data;
                     tensor_device := DEVICE (config (at_config wm)) |}
                  (dims_n_mels m))).
Proof.
  intros Hpre.
  destruct (preprocess_audio_outcome _ _ _ Hpre) as (decoded & sr & Hload & ->).
  change (SAMPLE_RATE (config (at_config wm)) * 30) with 480000.
  assert (Hlen : len (spec_window 480000 decoded) = 480000)
    by (apply len_spec_window; lia).
  split; [exact Hlen |].
  split; [apply slice_to_all; lia |].
  intros m -> Hsize.
  rewrite detect_language_run, (within_limit _ _ Hsize), Hload.
  cbv zeta. cbn [config at_config].
  destruct (log_mel_spectrogram _ (dims_n_mels m)); reflexivity.
Qed.

(** C10.  [health_check] always returns: its status is ["healthy"] exactly
    when [whisper_model] is not [None] and ["unhealthy"] exactly when it
    is, and its model and device fields are [config.MODEL_NAME] and
    [config.DEVICE] either way. *)
Theorem health_check_reports_model_state (g : Globals) (now : string) :
  exists response : HealthResponse.t,
    health_check now g = (Ok response, g, [])
    /\ (HealthResponse.status response = "healthy" <-> whisper_model g <> None)
    /\ (HealthResponse.status response = "unhealthy" <-> whisper_model g = None)
    /\ HealthResponse.model response = MODEL_NAME (config g)
    /\ HealthResponse.device response = DEVICE (config g)
    /\ HealthResponse.timestamp response = now.
Proof.
  unfold health_check. comp_unfold.
  eexists. split; [reflexivity |].
  cbn [HealthResponse.status HealthResponse.model HealthResponse.device
       HealthResponse.timestamp].
  destruct (whisper_model g) as [m |];
    repeat split; intros; congruence.
Qed.

(** *** Further properties of the handlers *)

(** X1.  While [whisper_model] is [None], [transcribe_audio] and
    [detect_language] answer 503 "Whisper model not loaded" before they
    look at the upload, whereas [transcribe_quick] and
    [transcribe_stream], which have no such check, answer 500; none of
    the four calls the library or changes a global. *)
Theorem unloaded_model_answers
  (g : Globals) (file : bytes) (model : string) (language : option string)
  (response_format : string) (temperature : Q)
  (timestamp_granularities : option string) :
  whisper_model g = None ->
  transcribe_audio file model language response_format temperature
    timestamp_granularities g
  = (Raise (HTTPException 503 "Whisper model not loaded"), g, [])
  /\ detect_language file g
     = (Raise (HTTPException 503 "Whisper model not loaded"), g, [])
  /\ (exists detail,
        transcribe_quick file g = (Raise (HTTPException 500 detail), g, []))
  /\ (exists detail,
        transcribe_stream file g = (Raise (HTTPException 500 detail), g, [])).
Proof.
  intros Hnone.
  split; [| split; [| split]].
  - unfold transcribe_audio. comp_unfold. now rewrite Hnone.
  - unfold detect_language. comp_unfold. now rewrite Hnone.
  - unfold transcribe_quick. comp_unfold.
    destruct (preprocess_audio_pure file g) as [[a | e] ->]; comp_unfold.
    + rewrite Hnone. comp_unfold. eauto.
    + eauto.
  - unfold transcribe_stream. comp_unfold.
    destruct (preprocess_audio_pure file g) as [[a | e] ->]; comp_unfold.
    + rewrite Hnone. comp_unfold. eauto.
    + eauto.
Qed.

(** X2.  [transcribe_quick] and [transcribe_stream] apply no size limit:
    whatever the length of the upload, once [librosa.load] decodes it
    the model is called on the 480000-sample window of the decoded
    audio. *)
Theorem quick_and_stream_have_no_size_limit
  (m : Model) (file : bytes) (decoded : ndarray) (sr : Z) :
  librosa_load file 16000 = Ok (decoded, sr) ->
  trace (transcribe_quick file (at_config (Some m)))
  = [CallTranscribe m (spec_window 480000 decoded) quick_options]
  /\ trace (transcribe_stream file (at_config (Some m)))
     = [CallTranscribe m (spec_window 480000 decoded) stream_options].
Proof.
  intros Hload.
  rewrite transcribe_quick_run, transcribe_stream_run, Hload.
  split; reflexivity.
Qed.

(** X3.  An [HTTPException] that leaves one of the four POST handlers
    has status 500, or is the 503 of [transcribe_audio] and
    [detect_language] for the model that is not loaded: whatever the
    globals and the upload, no [HTTPException] with status 413 (or any
    other status) gets out, since the [try] blocks catch it and raise a
    500 in its place. *)
Theorem post_handlers_raise_500_or_503
  (g : Globals) (file : bytes) (model : string) (language : option string)
  (response_format : string) (temperature : Q)
  (timestamp_granularities : option string) :
  (forall status detail,
     outcome (transcribe_audio file model language response_format
                temperature timestamp_granularities g)
     = Raise (HTTPException status detail) ->
     status = 500
     \/ (status = 503 /\ detail = "Whisper model not loaded"
         /\ whisper_model g = None))
  /\ (forall status detail,
        outcome (detect_language file g)
        = Raise (HTTPException status detail) ->
        status = 500
        \/ (status = 503 /\ detail = "Whisper model not loaded"
            /\ whisper_model g = None))
  /\ (forall status detail,
        outcome (transcribe_quick file g)
        = Raise (HTTPException status detail) ->
        status = 500)
  /\ (forall status detail,
        outcome (transcribe_stream file g)
        = Raise (HTTPException status detail) ->
        status = 500).
Proof.
  split; [| split; [| split]]; intros status detail.
  - unfold transcribe_audio. rewrite outcome_bind_read.
    destruct (whisper_model g) as [m |] eqn:Hwm.
    + intros H. left. apply try_except_500 in H.
      destruct H as [d H]. congruence.
    + unfold raise, outcome. cbn [fst]. intros H. injection H as <- <-.
      right. repeat split; reflexivity.
  - unfold detect_language. rewrite outcome_bind_read.
    destruct (whisper_model g) as [m |] eqn:Hwm.
    + intros H. left. apply try_except_500 in H.
      destruct H as [d H]. congruence.
    + unfold raise, outcome. cbn [fst]. intros H. injection H as <- <-.
      right. repeat split; reflexivity.
  - intros H. apply try_except_500 in H. destruct H as [d H]. congruence.
  - intros H. apply try_except_500 in H. destruct H as [d H]. congruence.
Qed.

(** X4.  An upload that [librosa.load] cannot decode never reaches the
    library in any of the four POST handlers.  [transcribe_quick] and
    [transcribe_stream] answer 500 with the decoder's message as the
    detail; [transcribe_audio] and [detect_language], with the model
    loaded and the size within the limit, answer 500 with the message
    behind their own prefix. *)
Theorem undecodable_upload_reaches_no_model
  (wm : option Model) (file : bytes) (e : Exn) (model : string)
  (language : option string) (response_format : string) (temperature : Q)
  (timestamp_granularities : option string) :
  librosa_load file 16000 = Raise e ->
  let run_t :=
    transcribe_audio file model language response_format temperature
      timestamp_granularities (at_config wm) in
  let run_d := detect_language file (at_config wm) in
  trace run_t = [] /\ trace run_d = []
  /\ transcribe_quick file (at_config wm)
     = (Raise (HTTPException 500 (str_exn e)), at_config wm, [])
  /\ transcribe_stream file (at_config wm)
     = (Raise (HTTPException 500 (str_exn e)), at_config wm, [])
  /\ (wm <> None ->
      len file <= MAX_FILE_SIZE (config (at_config wm)) ->
      outcome run_t
      = Raise (HTTPException 500
                 ("Transcription failed: " ++ str_exn e)%string)
      /\ outcome run_d
         = Raise (HTTPException 500
                    ("Language detection failed: " ++ str_exn e)%string)).
Proof.
  intros Hload run_t run_d. subst run_t run_d.
  rewrite transcribe_quick_run, transcribe_stream_run, Hload.
  destruct wm as [m |].
  - rewrite transcribe_audio_run, detect_language_run, Hload.
    destruct (len file >? 26214400) eqn:Hsize;
      unfold trace, outcome; cbn [fst snd];
      (split; [reflexivity |]); (split; [reflexivity |]);
      (split; [reflexivity |]); (split; [reflexivity |]);
      intros _ Hle.
    + rewrite (within_limit _ _ Hle) in Hsize. discriminate.
    + split; reflexivity.
  - unfold transcribe_audio, detect_language. comp_unfold.
    (split; [reflexivity |]); (split; [reflexivity |]);
    (split; [reflexivity |]); (split; [reflexivity |]).
    intros Hwm. congruence.
Qed.

(** X5.  When [transcribe_stream] answers, its segments are the model's
    segments one for one and in the same order (none when the result
    has no [segments] key): each keeps its [start] and [end], carries
    the stripped [text], and has the confidence [1.0 - abs(p)] of its
    [avg_logprob] [p], which is 0 when the segment has no [avg_logprob]. *)
Theorem transcribe_stream_keeps_segments
  (m : Model) (file : bytes) (decoded : ndarray) (sr : Z)
  (result : TranscribeResult) (response : StreamResponse.t) :
  librosa_load file 16000 = Ok (decoded, sr) ->
  model_transcribe m (spec_window 480000 decoded) stream_options
  = Ok result ->
  outcome (transcribe_stream file (at_config (Some m))) = Ok response ->
  let segments :=
    match res_segments result with Some l => l | None => [] end in
  Forall2
    (fun segment streamed =>
       (exists text,
          seg_text segment = Some text
          /\ StreamSegment.text streamed = strip text)
       /\ seg_start segment = Some (StreamSegment.start streamed)
       /\ seg_end segment = Some (StreamSegment.end_ streamed)
       /\ match seg_avg_logprob segment with
          | Some p => StreamSegment.confidence streamed = (1 - Qabs p)%Q
          | None => (StreamSegment.confidence streamed == 0)%Q
          end)
    segments (StreamResponse.segments response)
  /\ List.length (StreamResponse.segments response) = List.length segments
  /\ StreamResponse.language response = res_language result.
Proof.
  intros Hload Hmodel Hout segments. subst segments.
  rewrite transcribe_stream_run, Hload in Hout. cbv zeta in Hout.
  rewrite Hmodel in Hout. unfold outcome in Hout. cbn [fst] in Hout.
  destruct (map_result stream_segment _) as [streamed | e] eqn:Hmap;
    [| discriminate].
  destruct (res_text result) as [text |]; [| discriminate].
  injection Hout as <-. cbn [StreamResponse.segments StreamResponse.language].
  apply map_result_Forall2 in Hmap.
  split; [| split; [| reflexivity]].
  - eapply Forall2_impl; [| exact Hmap].
    intros segment s Hs. apply stream_segment_ok in Hs.
    destruct Hs as (Htext & Hstart & Hend & Hconf).
    repeat split; auto.
    destruct (seg_avg_logprob segment) as [p |]; [exact Hconf |].
    rewrite Hconf. reflexivity.
  - symmetry. eapply Forall2_length. exact Hmap.
Qed.


(** X7.  The confidences are not clamped at 0.  When both handlers
    answer, the confidence of [transcribe_audio] is negative exactly when
    the result's [avg_logprob] is below -1, and the confidence of a
    streamed segment never exceeds 1 and is negative exactly when the
    segment's [avg_logprob] is below -1 or above 1. *)
Theorem confidence_goes_negative
  (m : Model) (file : bytes) (model : string) (language : option string)
  (response_format : string) (temperature : Q)
  (timestamp_granularities : option string)
  (decoded : ndarray) (sr : Z) (p : Q)
  (result_a result_s : TranscribeResult) (text_a text_s : string)
  (segments : list Segment) :
  len file <= MAX_FILE_SIZE (config (at_config (Some m))) ->
  librosa_load file 16000 = Ok (decoded, sr) ->
  model_transcribe m (spec_window 480000 decoded)
    (transcription_options language temperature timestamp_granularities)
  = Ok result_a ->
  res_text result_a = Some text_a ->
  res_avg_logprob result_a = Some p ->
  model_transcribe m (spec_window 480000 decoded) stream_options
  = Ok result_s ->
  res_text result_s = Some text_s ->
  res_segments result_s = Some segments ->
  Forall
    (fun segment =>
       seg_text segment <> None /\ seg_start segment <> None
       /\ seg_end segment <> None)
    segments ->
  exists (response_a : TranscriptionResponse.t)
         (response_s : StreamResponse.t) (c : Q),
    outcome (transcribe_audio file model language response_format
               temperature timestamp_granularities (at_config (Some m)))
    = Ok response_a
    /\ TranscriptionResponse.confidence response_a = Some c
    /\ (c < 0 <-> p < -1)%Q
    /\ outcome (transcribe_stream file (at_config (Some m))) = Ok response_s
    /\ Forall2
         (fun segment streamed =>
            forall q,
              seg_avg_logprob segment = Some q ->
              (StreamSegment.confidence streamed <= 1)%Q
              /\ (StreamSegment.confidence streamed < 0
                  <-> q < -1 \/ 1 < q)%Q)
         segments (StreamResponse.segments response_s).
Proof.
  intros Hsize Hload Hmodel_a Htext_a Hlogprob Hmodel_s Htext_s Hsegs
    Hcomplete.
  destruct (stream_segments_total segments Hcomplete)
    as (streamed & Hrun & Hall).
  rewrite transcribe_audio_run, (within_limit _ _ Hsize), Hload.
  rewrite transcribe_stream_run, Hload. cbv zeta.
  rewrite Hmodel_a, Htext_a, Hlogprob, Hmodel_s, Hsegs, Hrun, Htext_s.
  unfold outcome. cbn [fst].
  eexists. eexists. exists (overall_confidence p).
  split; [reflexivity |]. split; [reflexivity |].
  split; [rewrite overall_confidence_value; split; intros H; lra |].
  split; [reflexivity |].
  cbn [StreamResponse.segments].
  eapply Forall2_impl; [| exact Hall].
  intros segment s Hconf q Hq. cbv beta in Hconf. rewrite Hq in Hconf.
  rewrite Hconf.
  unfold segment_confidence.
  pose proof (Qabs_nonneg q) as Hnn.
  pose proof (Qabs_Qle_condition q 1) as Hc.
  split; [lra |]. split.
  - intros Hneg.
    destruct (Qlt_le_dec q (-1)) as [Hlow | Hlow]; [now left |].
    destruct (Qlt_le_dec 1 q) as [Hhigh | Hhigh]; [now right |].
    assert (Qabs q <= 1)%Q by (apply Hc; split; assumption). lra.
  - intros Hout.
    destruct (Qlt_le_dec 1 (Qabs q)) as [Hbig | Hsmall]; [lra |].
    apply Hc in Hsmall. destruct Hout; lra.
Qed.

(** X9.  On a tie [detect_language] answers with the language that comes
    first in the model's dictionary: every key before the detected one
    has a strictly smaller probability, every key after it one that is no
    larger. *)
Theorem detect_language_prefers_first_maximum
  (m : Model) (file : bytes) (decoded : ndarray) (sr : Z) (mel : Mel)
  (tok : LanguageToken) (probs : dict string Q)
  (response : LanguageDetectionResponse.t) :
  len file <= MAX_FILE_SIZE (config (at_config (Some m))) ->
  librosa_load file 16000 = Ok (decoded, sr) ->
  log_mel_spectrogram
    {| tensor_data := spec_window 480000 decoded;
       tensor_device := DEVICE (config (at_config (Some m))) |}
    (dims_n_mels m) = Ok mel ->
  model_detect_language m mel = Ok (tok, probs) ->
  outcome (detect_language file (at_config (Some m))) = Ok response ->
  exists before after,
    keys probs
    = before
      ++ LanguageDetectionResponse.detected_language response :: after
    /\ (forall k v,
          In k before -> dict_get probs k = Some v ->
          (v < LanguageDetectionResponse.confidence response)%Q)
    /\ (forall k v,
          In k after -> dict_get probs k = Some v ->
          (v <= LanguageDetectionResponse.confidence response)%Q).
Proof.
  intros Hsize Hload Hmel Hdetect Hout.
  rewrite detect_language_run, (within_limit _ _ Hsize), Hload in Hout.
  cbv zeta in Hout. cbn [config at_config] in Hmel.
  rewrite Hmel, Hdetect in Hout. unfold outcome in Hout. cbn [fst] in Hout.
  destruct (py_max (keys probs) (probs_get probs)) as [k |] eqn:Hmax;
    [| discriminate].
  destruct (dict_item probs k) as [c |] eqn:Hitem; [| discriminate].
  injection Hout as <-.
  cbn [LanguageDetectionResponse.detected_language
       LanguageDetectionResponse.confidence].
  destruct (py_max_first _ _ _ Hmax) as (l1 & l2 & kr & Hkeys & Hkr & Hl1 & Hl2).
  assert (Hc : kr = c).
  { unfold probs_get in Hkr. unfold dict_item in Hitem.
    destruct (dict_get probs k); congruence. }
  subst kr. exists l1, l2. split; [exact Hkeys |].
  split; intros k' v Hin Hget.
  - apply (Hl1 k' v Hin). unfold probs_get. now rewrite Hget.
  - apply (Hl2 k' v Hin). unfold probs_get. now rewrite Hget.
Qed.

(** X10.  When the model's [detect_language] returns an empty
    dictionary, the handler has called the spectrogram and the model and
    answers 500 "Language detection failed: ...": [max] of nothing
    raises. *)
Theorem detect_language_empty_probs
  (m : Model) (file : bytes) (decoded : ndarray) (sr : Z) (mel : Mel)
  (tok : LanguageToken) :
  len file <= MAX_FILE_SIZE (config (at_config (Some m))) ->
  librosa_load file 16000 = Ok (decoded, sr) ->
  log_mel_spectrogram
    {| tensor_data := spec_window 480000 decoded;
       tensor_device := DEVICE (config (at_config (Some m))) |}
    (dims_n_mels m) = Ok mel ->
  model_detect_language m mel = Ok (tok, []) ->
  (exists detail,
     outcome (detect_language file (at_config (Some m)))
     = Raise (HTTPException 500
                ("Language detection failed: " ++ detail)%string))
  /\ trace (detect_language file (at_config (Some m)))
     = [CallLogMel
          {| tensor_data := spec_window 480000 decoded;
             tensor_device := DEVICE (config (at_config (Some m))) |}
          (dims_n_mels m);
        CallDetectLanguage m mel].
Proof.
  intros Hsize Hload Hmel Hdetect.
  rewrite detect_language_run, (within_limit _ _ Hsize), Hload.
  cbv zeta. cbn [config at_config] in *.
  rewrite Hmel, Hdetect. unfold outcome, trace. cbn [fst snd].
  split; [| reflexivity].
  cbn [keys map py_max str_exn]. eauto.
Qed.

(** X11.  In every state the process can reach, [config] is the
    configuration of the import, and [whisper_model] is either [None] or
    the very model [whisper.load_model] returns for the configured name
    and device; if that load raises, the model is never there. *)
Theorem reachable_model_is_the_configured_one (g : Globals) :
  reachable g ->
  config g = Config_init
  /\ match whisper_load_model (MODEL_NAME Config_init) (DEVICE Config_init) with
     | Ok m => whisper_model g = None \/ whisper_model g = Some m
     | Raise _ => whisper_model g = None
     end.
Proof.
  induction 1 as [| g Hg [IHc IHm] | g req Hg IH].
  - split; [reflexivity |].
    destruct (whisper_load_model _ _); cbn [whisper_model module_init]; auto.
  - rewrite startup_event_globals, IHc.
    destruct (whisper_load_model (MODEL_NAME Config_init) (DEVICE Config_init))
      as [m | e]; cbn [config whisper_model]; auto.
  - rewrite (handle_preserves req g). exact IH.
Qed.

(** X12.  After the startup hook has run on the freshly imported
    module, [health_check] reports ["healthy"] exactly when
    [whisper.load_model] returned a model, and ["unhealthy"] exactly when
    it raised. *)
Theorem health_follows_startup (now : string) :
  exists response : HealthResponse.t,
    outcome (health_check now (globals_after (startup_event module_init)))
    = Ok response
    /\ (HealthResponse.status response = "healthy"
        <-> exists m,
              whisper_load_model (MODEL_NAME Config_init) (DEVICE Config_init)
              = Ok m)
    /\ (HealthResponse.status response = "unhealthy"
        <-> exists e,
              whisper_load_model (MODEL_NAME Config_init) (DEVICE Config_init)
              = Raise e).
Proof.
  rewrite startup_event_globals. cbn [config module_init].
  unfold health_check. comp_unfold.
  destruct (whisper_load_model (MODEL_NAME Config_init) (DEVICE Config_init))
    as [m | e]; cbn [whisper_model]; eexists; (split; [reflexivity |]);
    cbn [HealthResponse.status]; split; split;
    try (intros [x Hx]); try intros Hx; try discriminate; eauto.
Qed.

(** X13.  The window [preprocess_audio] returns has 480000 samples, and
    for every [i] below 480000 its sample [i] is there: it is sample [i]
    of the decoded audio where the decoded audio has one, and 0.0 from
    the end of the decoded audio on.  An upload that decodes to no sample
    at all becomes 480000 zeros. *)
Theorem preprocess_audio_samples
  (wm : option Model) (audio_file : bytes) (decoded : ndarray) (sr : Z) :
  librosa_load audio_file 16000 = Ok (decoded, sr) ->
  exists out : ndarray,
    outcome (preprocess_audio audio_file (at_config wm)) = Ok out
    /\ len out = 480000
    /\ (forall i : nat,
          Z.of_nat i < 480000 -> Z.of_nat i < len decoded ->
          nth_error out i = nth_error decoded i
          /\ nth_error out i <> None)
    /\ (forall i : nat,
          Z.of_nat i < 480000 -> len decoded <= Z.of_nat i ->
          nth_error out i = Some 0%Q)
    /\ (decoded = [] -> out = repeat 0%Q (Z.to_nat 480000)).
Proof.
  intros Hload. exists (spec_window 480000 decoded).
  rewrite preprocess_audio_run, Hload.
  split; [reflexivity |].
  split; [apply len_spec_window; lia |].
  unfold spec_window, len.
  split; [| split].
  - intros i Hi Hin.
    assert (Hsome : nth_error decoded i <> None)
      by (apply nth_error_Some; lia).
    destruct (Z.gtb_spec (Z.of_nat (List.length decoded)) 480000)
      as [Hgt | Hle].
    + rewrite nth_error_firstn.
      destruct (Nat.ltb_spec i (Z.to_nat 480000)); [| lia].
      split; [reflexivity | exact Hsome].
    + rewrite nth_error_app1 by lia. split; [reflexivity | exact Hsome].
  - intros i Hi Hout.
    destruct (Z.gtb_spec (Z.of_nat (List.length decoded)) 480000)
      as [Hgt | Hle]; [lia |].
    rewrite nth_error_app2 by lia.
    apply nth_error_repeat. lia.
  - intros ->. reflexivity.
Qed.

Ltac run_step :=
  comp_unfold;
  match goal with
  | |- context [preprocess_audio ?f ?g] =>
      let r := fresh "r" in
      destruct (preprocess_audio_pure f g) as [r ->]
  | |- context [match ?x with _ => _ end] =>
      lazymatch x with
      | context [match _ with _ => _ end] => fail
      | _ => destruct x
      end
  end.

(** X14.  No request handler loads a model, and no request runs the
    model more than once: in the calls of any handler, from any globals,
    there is no [whisper.load_model], and at most one call is a
    [transcribe] or a [detect_language].  The three GET handlers call
    nothing at all. *)
Theorem handlers_never_load_and_run_once (g : Globals) (req : Request) :
  Forall (fun ev => is_load_call ev = false) (trace (handle req g))
  /\ (List.length (filter is_model_call (trace (handle req g))) <= 1)%nat
  /\ match req with
     | GetHealth _ | GetModels | GetInfo => trace (handle req g) = []
     | _ => True
     end.
Proof.
  destruct req; unfold handle;
    unfold health_check, get_models, transcribe_audio, detect_language,
      transcribe_quick, transcribe_stream, get_info;
    repeat run_step; comp_unfold;
    cbn [app filter is_model_call List.length];
    (split; [repeat constructor | split; [lia | exact I || reflexivity]]).
Qed.

End ServerFacts.

(** *** The theorems at work in the demo world *)

Lemma demo_clip_within_limit :
  len Demo.clip <= MAX_FILE_SIZE (config (at_config (Some Demo.model))).
Proof. apply Z.leb_le. reflexivity. Defined.

Lemma demo_clip_preprocessed :
  outcome (preprocess_audio Demo.clip (at_config (Some Demo.model)))
  = Ok (spec_window 480000 (map Demo.decode_sample Demo.clip)).
Proof. rewrite preprocess_audio_run. reflexivity. Defined.

Lemma preprocess_audio_fixed_window_witness :
  (exists out : ndarray,
     preprocess_audio Demo.clip Demo.started = (Ok out, Demo.started, [])
     /\ len out = 480000
     /\ out = [0 # 128; 64 # 128; (-64) # 128]
              ++ repeat 0%Q (Z.to_nat (480000 - 3)))
  /\ (exists out : ndarray,
        preprocess_audio Demo.long_clip Demo.started
        = (Ok out, Demo.started, [])
        /\ len out = 480000
        /\ out = firstn (Z.to_nat 480000)
                   (map Demo.decode_sample Demo.long_clip)).
Proof.
  split.
  - destruct (preprocess_audio_fixed_window (Some Demo.model) Demo.clip
                (map Demo.decode_sample Demo.clip) 16000 eq_refl)
      as (out & Hrun & _ & Hlen & _ & Hpad).
    exists out. split; [exact Hrun |]. split; [exact Hlen |].
    apply Hpad. unfold len. cbn [map Demo.clip List.length Z.of_nat]. lia.
  - destruct (preprocess_audio_fixed_window (Some Demo.model) Demo.long_clip
                (map Demo.decode_sample Demo.long_clip) 16000 eq_refl)
      as (out & Hrun & _ & Hlen & Htrim & _).
    exists out. split; [exact Hrun |]. split; [exact Hlen |].
    apply Htrim. unfold len, Demo.long_clip.
    rewrite length_map. cbn [List.length]. rewrite repeat_length. lia.
Defined.

Lemma transcribe_audio_confidence_witness :
  exists response : TranscriptionResponse.t,
    outcome (transcribe_audio Demo.clip "base" (Some "ko") "json" 0%Q None
               Demo.started) = Ok response
    /\ TranscriptionResponse.confidence response
       = Some (1 - (- (1 # 4) / -1))%Q
    /\ (1 - (- (1 # 4) / -1) == 1 + - (1 # 4))%Q.
Proof.
  exact (transcribe_audio_confidence Demo.model Demo.clip "base" (Some "ko")
           "json" 0%Q None
           (spec_window 480000 (map Demo.decode_sample Demo.clip))
           Demo.demo_result " annyeong "
           demo_clip_within_limit demo_clip_preprocessed eq_refl eq_refl).
Defined.



Lemma detect_language_returns_most_probable_witness :
  exists response : LanguageDetectionResponse.t,
    outcome (detect_language Demo.clip Demo.started) = Ok response
    /\ In (LanguageDetectionResponse.detected_language response)
         (keys Demo.demo_probs)
    /\ dict_get Demo.demo_probs
         (LanguageDetectionResponse.detected_language response)
       = Some (LanguageDetectionResponse.confidence response)
    /\ (forall k v,
          dict_get Demo.demo_probs k = Some v ->
          (v <= LanguageDetectionResponse.confidence response)%Q).
Proof.
  apply (detect_language_returns_most_probable Demo.model Demo.clip
           (spec_window 480000 (map Demo.decode_sample Demo.clip))
           (spec_window 480000 (map Demo.decode_sample Demo.clip), 80)
           50264 Demo.demo_probs
           demo_clip_within_limit demo_clip_preprocessed eq_refl eq_refl).
  discriminate.
Defined.

Lemma transcribe_audio_calls_model_once_witness :
  let run :=
    transcribe_audio Demo.clip "base" (Some "ko") "json" 0%Q None
      Demo.started in
  globals_after run = Demo.started
  /\ trace run
     = [CallTranscribe Demo.model
          (spec_window 480000 (map Demo.decode_sample Demo.clip))
          (transcription_options (Some "ko") 0%Q None)]
  /\ outcome run
     = Ok {| TranscriptionResponse.text := "annyeong";
             TranscriptionResponse.language := Some "ko";
             TranscriptionResponse.duration := None;
             TranscriptionResponse.segments := res_segments Demo.demo_result;
             TranscriptionResponse.confidence :=
               Some (overall_confidence (- (1 # 4))) |}.
Proof.
  intros run.
  destruct (transcribe_audio_calls_model_once Demo.model Demo.clip "base"
              (Some "ko") "json" 0%Q None demo_clip_within_limit)
    as [Hglobals Hrun].
  rewrite demo_clip_preprocessed in Hrun. destruct Hrun as [Htrace Hout].
  split; [exact Hglobals |]. split; [exact Htrace | exact Hout].
Defined.

Lemma oversized_upload_is_refused_witness :
  let file := repeat x00 (Z.to_nat 26214401) in
  outcome (transcribe_audio file "base" (Some "ko") "json" 0%Q None
             Demo.started)
  = Raise (HTTPException 500
      "Transcription failed: 413: File too large. Maximum size: 26214400 bytes")
  /\ trace (transcribe_audio file "base" (Some "ko") "json" 0%Q None
              Demo.started) = []
  /\ trace (detect_language file Demo.started) = [].
Proof.
  intros file.
  assert (Hsize : len file > MAX_FILE_SIZE (config (at_config (Some Demo.model)))).
  { change (MAX_FILE_SIZE (config (at_config (Some Demo.model))))
      with 26214400.
    unfold len, file. rewrite repeat_length. lia. }
  destruct (oversized_upload_is_refused (Some Demo.model) file "base"
              (Some "ko") "json" 0%Q None Hsize)
    as (_ & _ & Ht & _ & Hd & Hstatus).
  split; [apply Hstatus; discriminate |].
  split; [exact Ht | exact Hd].
Defined.

Lemma detect_language_slice_is_identity_witness :
  let audio_data := spec_window 480000 (map Demo.decode_sample Demo.clip) in
  len audio_data = 480000
  /\ slice_to audio_data 480000 = audio_data
  /\ hd_error (trace (detect_language Demo.clip Demo.started))
     = Some (CallLogMel
               {| tensor_data := audio_data; tensor_device := "cpu" |} 80).
Proof.
  intros audio_data.
  destruct (detect_language_slice_is_identity (Some Demo.model) Demo.clip
              audio_data demo_clip_preprocessed)
    as (Hlen & Hslice & Hcall).
  split; [exact Hlen |]. split; [exact Hslice |].
  exact (Hcall Demo.model eq_refl demo_clip_within_limit).
Defined.

(** *** The further properties at work in the demo world *)

Lemma unloaded_model_answers_witness :
  transcribe_audio Demo.clip "base" (Some "ko") "json" 0%Q None
    (@module_init Demo.world)
  = (Raise (HTTPException 503 "Whisper model not loaded"), module_init, [])
  /\ (exists detail,
        transcribe_quick Demo.clip (@module_init Demo.world)
        = (Raise (HTTPException 500 detail), module_init, [])).
Proof.
  destruct (unloaded_model_answers (@module_init Demo.world) Demo.clip
              "base" (Some "ko") "json" 0%Q None eq_refl)
    as (Ht & _ & Hq & _).
  split; [exact Ht | exact Hq].
Defined.

Lemma quick_and_stream_have_no_size_limit_witness :
  len Demo.big_upload > MAX_FILE_SIZE (config Demo.started)
  /\ trace (transcribe_quick Demo.big_upload Demo.started)
     = [CallTranscribe Demo.model
          (spec_window 480000 (map Demo.decode_sample Demo.big_upload))
          (@quick_options Demo.world)]
  /\ trace (transcribe_stream Demo.big_upload Demo.started)
     = [CallTranscribe Demo.model
          (spec_window 480000 (map Demo.decode_sample Demo.big_upload))
          (@stream_options Demo.world)].
Proof.
  split.
  - change (MAX_FILE_SIZE (config Demo.started)) with 26214400.
    unfold Demo.big_upload.
    change (x80 :: repeat x80 (Z.to_nat 26214400))
      with ([x80] ++ repeat x80 (Z.to_nat 26214400)).
    rewrite len_app, len_repeat by lia.
    change (len [x80]) with 1. lia.
  - exact (quick_and_stream_have_no_size_limit Demo.model Demo.big_upload
             (map Demo.decode_sample Demo.big_upload) 16000 eq_refl).
Defined.

Lemma undecodable_upload_reaches_no_model_witness :
  transcribe_quick [] Demo.started
  = (Raise (HTTPException 500 "empty file"), Demo.started, [])
  /\ trace (transcribe_audio [] "base" (Some "ko") "json" 0%Q None
              Demo.started) = []
  /\ outcome (transcribe_audio [] "base" (Some "ko") "json" 0%Q None
                Demo.started)
     = Raise (HTTPException 500 "Transcription failed: empty file").
Proof.
  destruct (undecodable_upload_reaches_no_model (Some Demo.model) []
              (LibraryError "empty file") "base" (Some "ko") "json" 0%Q None
              eq_refl)
    as (Ht & _ & Hq & _ & Hboth).
  split; [exact Hq |]. split; [exact Ht |].
  apply Hboth; [discriminate | apply Z.leb_le; reflexivity].
Defined.

Lemma transcribe_stream_keeps_segments_witness :
  List.length (StreamResponse.segments Demo.stream_response) = 1%nat
  /\ StreamResponse.language Demo.stream_response = Some "ko".
Proof.
  destruct (transcribe_stream_keeps_segments Demo.model Demo.clip
              (map Demo.decode_sample Demo.clip) 16000 Demo.demo_result
              Demo.stream_response eq_refl eq_refl eq_refl)
    as (_ & Hlen & Hlang).
  split; [exact Hlen | exact Hlang].
Defined.


Lemma confidence_goes_negative_witness :
  exists (response_a : TranscriptionResponse.t)
         (response_s : StreamResponse.t) (c : Q),
    outcome (@transcribe_audio Demo.unsure_world Demo.clip "base"
               (Some "ko") "json" 0%Q None
               (@at_config Demo.unsure_world (Some Demo.model)))
    = Ok response_a
    /\ TranscriptionResponse.confidence response_a = Some c
    /\ (c < 0)%Q
    /\ outcome (@transcribe_stream Demo.unsure_world Demo.clip
                  (@at_config Demo.unsure_world (Some Demo.model)))
       = Ok response_s
    /\ Forall (fun streamed => (StreamSegment.confidence streamed < 0)%Q)
         (StreamResponse.segments response_s).
Proof.
  assert (Hcomplete :
            Forall
              (fun segment =>
                 seg_text segment <> None /\ seg_start segment <> None
                 /\ seg_end segment <> None)
              [ {| seg_text := Some "a";
                   seg_start := Some 0%Q;
                   seg_end := Some 1%Q;
                   seg_avg_logprob := Some (- 2)%Q |} ])
    by (constructor; [repeat split; discriminate | constructor]).
  destruct (@confidence_goes_negative Demo.unsure_world Demo.model Demo.clip
              "base" (Some "ko") "json" 0%Q None
              (map Demo.decode_sample Demo.clip) 16000 (- 2)%Q
              (Demo.result_with (- 2)%Q) (Demo.result_with (- 2)%Q) "a" "a"
              _ demo_clip_within_limit eq_refl eq_refl eq_refl eq_refl
              eq_refl eq_refl eq_refl Hcomplete)
    as (response_a & response_s & c & Ha & Hc & Hneg & Hs & Hall).
  exists response_a, response_s, c.
  split; [exact Ha |]. split; [exact Hc |].
  split; [apply Hneg; reflexivity |]. split; [exact Hs |].
  inversion Hall as [| segment streamed segs ss Hone Hrest Hsegs Hss].
  inversion Hrest; subst. constructor; [| constructor].
  apply (Hone (- 2)%Q eq_refl). left. reflexivity.
Defined.

Lemma detect_language_prefers_first_maximum_witness :
  exists before after,
    keys Demo.tie_probs = before ++ "en" :: after
    /\ (forall k v,
          In k before -> dict_get Demo.tie_probs k = Some v -> (v < 1 # 2)%Q)
    /\ (forall k v,
          In k after -> dict_get Demo.tie_probs k = Some v -> (v <= 1 # 2)%Q).
Proof.
  exact (@detect_language_prefers_first_maximum
           Demo.tie_world Demo.model
           Demo.clip (map Demo.decode_sample Demo.clip) 16000
           (spec_window 480000 (map Demo.decode_sample Demo.clip), 80)
           50264 Demo.tie_probs
           {| LanguageDetectionResponse.detected_language := "en";
              LanguageDetectionResponse.confidence := 1 # 2 |}
           demo_clip_within_limit eq_refl eq_refl eq_refl eq_refl).
Defined.

Lemma detect_language_empty_probs_witness :
  exists detail,
    outcome (@detect_language Demo.broken_world Demo.clip
               (@at_config Demo.broken_world (Some Demo.model)))
    = Raise (HTTPException 500
               ("Language detection failed: " ++ detail)%string).
Proof.
  exact (proj1 (@detect_language_empty_probs
                  Demo.broken_world Demo.model Demo.clip
                  (map Demo.decode_sample Demo.clip) 16000
                  (spec_window 480000 (map Demo.decode_sample Demo.clip), 80)
                  50264 demo_clip_within_limit eq_refl eq_refl eq_refl)).
Defined.

Lemma reachable_model_is_the_configured_one_witness :
  let g := globals_after (startup_event (@module_init Demo.world)) in
  config g = @Config_init Demo.world
  /\ (whisper_model g = None \/ whisper_model g = Some ("base", "cpu")).
Proof.
  intros g.
  exact (reachable_model_is_the_configured_one g
           (reachable_startup _ reachable_init)).
Defined.

Lemma preprocess_audio_samples_witness :
  exists out : ndarray,
    outcome (preprocess_audio Demo.clip Demo.started) = Ok out
    /\ len out = 480000
    /\ nth_error out 1 = Some (64 # 128)
    /\ nth_error out 5 = Some 0%Q.
Proof.
  destruct (preprocess_audio_samples (Some Demo.model) Demo.clip
              (map Demo.decode_sample Demo.clip) 16000 eq_refl)
    as (out & Hrun & Hlen & Hin & Hpad & _).
  exists out. split; [exact Hrun |]. split; [exact Hlen |].
  split.
  - exact (proj1 (Hin 1%nat eq_refl eq_refl)).
  - apply Hpad; [reflexivity | apply Z.leb_le; reflexivity].
Defined.

(** *** Running the handlers in the demo world *)

Example strip_both_ends :
  strip (String (ascii_of_nat 9) "  a b  ") = "a b".
Proof. reflexivity. Qed.

Example py_max_keeps_first_maximum :
  py_max ["a"; "b"; "c"]
    (probs_get [("a", 1 # 2); ("b", 2 # 4); ("c", 1 # 3)]) = Ok "a".
Proof. reflexivity. Qed.

Example py_max_refuses_empty :
  py_max [] (probs_get []) = Raise (ValueError "max() arg is an empty sequence").
Proof. reflexivity. Qed.

Example health_before_startup :
  outcome (health_check "2026-01-01T00:00:00" (@module_init Demo.world))
  = Ok {| HealthResponse.status := "unhealthy";
          HealthResponse.model := "base";
          HealthResponse.device := "cpu";
          HealthResponse.timestamp := "2026-01-01T00:00:00" |}.
Proof. reflexivity. Qed.

Example health_after_startup :
  outcome (health_check "2026-01-01T00:00:00"
             (globals_after (startup_event (@module_init Demo.world))))
  = Ok {| HealthResponse.status := "healthy";
          HealthResponse.model := "base";
          HealthResponse.device := "cpu";
          HealthResponse.timestamp := "2026-01-01T00:00:00" |}.
Proof. reflexivity. Qed.

Example detect_language_demo :
  outcome (detect_language Demo.clip Demo.started)
  = Ok {| LanguageDetectionResponse.detected_language := "ko";
          LanguageDetectionResponse.confidence := 1 # 2 |}.
Proof. reflexivity. Qed.

Example detect_language_before_startup :
  detect_language Demo.clip (@module_init Demo.world)
  = (Raise (HTTPException 503 "Whisper model not loaded"), module_init, []).
Proof. reflexivity. Qed.

Example transcribe_quick_before_startup :
  transcribe_quick Demo.clip (@module_init Demo.world)
  = (Raise (HTTPException 500
              "'NoneType' object has no attribute 'transcribe'"),
     module_init, []).
Proof. reflexivity. Qed.

Example transcribe_stream_demo :
  outcome (transcribe_stream Demo.clip Demo.started)
  = Ok {| StreamResponse.text := "annyeong";
          StreamResponse.segments :=
            [ {| StreamSegment.text := "annyeong";
                 StreamSegment.start := 0%Q;
                 StreamSegment.end_ := 3 # 2;
                 StreamSegment.confidence :=
                   segment_confidence (- (1 # 4)) |} ];
          StreamResponse.language := Some "ko" |}.
Proof. reflexivity. Qed.

Example undecodable_upload :
  transcribe_audio [] "base" (Some "ko") "json" 0%Q None Demo.started
  = (Raise (HTTPException 500 "Transcription failed: empty file"),
     Demo.started, []).
Proof. reflexivity. Qed.

Example confidence_at_one_half :
  Qeq_bool (overall_confidence (1 # 2)) (3 # 2) = true
  /\ Qeq_bool (segment_confidence (1 # 2)) (1 # 2) = true.
Proof. split; reflexivity. Qed.
